(** * AI Image Style Transformer: the Gemini service and the App handlers

    A shallow embedding of [services/geminiService.ts] (prompt composition,
    the two remote operations and their response scan) and of the state
    handlers of [App.tsx], with the properties the specification states
    about them.

    Conventions.
    - A JavaScript string is its sequence of UTF-16 code units, [list N].
      Literals of the source are ASCII and are written with [str].
    - [influence] is a JavaScript number that the code only compares with 70
      and 30.  It is a rational here, [Q]: every finite double is one, and
      the comparison of doubles agrees with the one of the rationals.
    - [throw]/[try]/[catch]/[finally] are an error monad; the effects a
      handler has on the outside (remote call, console, state setters) are
      recorded, in order, in an event log next to the outcome. *)

From Stdlib Require Import List NArith ZArith QArith String Ascii Bool Lia Lqa.
Import ListNotations.
Close Scope Q_scope.

Set Implicit Arguments.

(* ------------------------------------------------------------------ *)
(** ** JavaScript strings *)

Definition jsstring := list N.

(** An ASCII literal of the source as code units. *)
Definition str (s : string) : jsstring :=
  List.map N_of_ascii (list_ascii_of_string s).
Arguments str : simpl never.

(** The code unit of the double quote, U+0022. *)
Definition dquote : jsstring := [34%N].

(** [a === b] on two strings: same code units in the same order. *)
Fixpoint strict_eq (a b : jsstring) : bool :=
  match a, b with
  | [], [] => true
  | x :: a', y :: b' => N.eqb x y && strict_eq a' b'
  | _, _ => false
  end.

(** ECMAScript WhiteSpace and LineTerminator code points, the ones
    [String.prototype.trim] strips.  All of them are single code units. *)
Definition isWhiteSpace (c : N) : bool :=
  (  N.eqb c 9      (* TAB *)
  || N.eqb c 10     (* LF *)
  || N.eqb c 11     (* VT *)
  || N.eqb c 12     (* FF *)
  || N.eqb c 13     (* CR *)
  || N.eqb c 32     (* SP *)
  || N.eqb c 160    (* NBSP *)
  || N.eqb c 5760   (* U+1680 *)
  || (N.leb 8192 c && N.leb c 8202)  (* U+2000 .. U+200A *)
  || N.eqb c 8232   (* U+2028 LS *)
  || N.eqb c 8233   (* U+2029 PS *)
  || N.eqb c 8239   (* U+202F *)
  || N.eqb c 8287   (* U+205F *)
  || N.eqb c 12288  (* U+3000 *)
  || N.eqb c 65279  (* U+FEFF *))%N.

Fixpoint trimStart (s : jsstring) : jsstring :=
  match s with
  | [] => []
  | c :: r => if isWhiteSpace c then trimStart r else s
  end.

Definition trimEnd (s : jsstring) : jsstring := rev (trimStart (rev s)).

(** [s.trim()] *)
Definition trim (s : jsstring) : jsstring := trimEnd (trimStart s).

(** Truthiness of a string in a condition: every string but the empty one. *)
Definition truthy (s : jsstring) : bool :=
  match s with [] => false | _ :: _ => true end.

(** The text is blank: empty, or white space only. *)
Definition blank (s : jsstring) : Prop := Forall (fun c => isWhiteSpace c = true) s.

(** [x] occurs in [s] as a contiguous run of code units. *)
Definition Contains (x s : jsstring) : Prop :=
  exists pre post, s = pre ++ x ++ post.

(** [s] ends with [x]. *)
Definition EndsWith (x s : jsstring) : Prop :=
  exists pre, s = pre ++ x.

(** The segments occur in [s] in the given order, without overlap. *)
Fixpoint InOrder (segments : list jsstring) (s : jsstring) : Prop :=
  match segments with
  | [] => True
  | x :: rest => exists pre post, s = pre ++ x ++ post /\ InOrder rest post
  end.

Fixpoint startsWith (x s : jsstring) : bool :=
  match x, s with
  | [], _ => true
  | a :: x', b :: s' => N.eqb a b && startsWith x' s'
  | _ :: _, [] => false
  end.

(** [s.includes(x)] *)
Fixpoint includes (x s : jsstring) : bool :=
  startsWith x s ||
  match s with
  | [] => false
  | _ :: s' => includes x s'
  end.

(* ------------------------------------------------------------------ *)
(** ** Prompt composition (geminiService.ts, lines 20-51) *)

Module Clause.

(** Line 23: [` The character should also be described as: "${...}".`] *)
Definition characterLead : jsstring :=
  str " The character should also be described as: ".

Definition character (characterDescription : jsstring) : jsstring :=
  characterLead ++ dquote ++ characterDescription ++ dquote ++ str ".".

(** Line 27: [` The scene and action should be: "${...}".`] *)
Definition sceneLead : jsstring :=
  str " The scene and action should be: ".

Definition scene (sceneDescription : jsstring) : jsstring :=
  sceneLead ++ dquote ++ sceneDescription ++ dquote ++ str ".".

(** Lines 33, 35, 37. *)
Definition adhereClosely : jsstring :=
  str " The overall style, clothing, and background should adhere closely to the descriptions provided.".

Definition strongReference : jsstring :=
  str " Use the descriptions as a strong reference, but allow for some artistic stylization in the clothing and background.".

Definition looseInspiration : jsstring :=
  str " Use the descriptions as a loose inspiration for the style, clothing, and background, allowing for significant creative interpretation.".

(** Lines 43, 45. *)
Definition highQuality : jsstring :=
  str " Generate the final image in high definition (HD) with photorealistic details, aiming for a resolution between 2K and 4K.".

Definition standardQuality : jsstring :=
  str " Generate the final image in a standard definition, suitable for web display, around 720p resolution.".

End Clause.

(** Lines 20-28: the base prompt with the optional clauses appended. *)
Definition fullPrompt (basePrompt characterDescription sceneDescription : jsstring)
  : jsstring :=
  let fullPrompt := basePrompt in
  let fullPrompt :=
    if truthy (trim characterDescription)
    then fullPrompt ++ Clause.character characterDescription
    else fullPrompt in
  let fullPrompt :=
    if truthy (trim sceneDescription)
    then fullPrompt ++ Clause.scene sceneDescription
    else fullPrompt in
  fullPrompt.

(** [x > y] on numbers. *)
Definition gt (x y : Q) : bool :=
  match (x ?= y)%Q with Gt => true | _ => false end.

(** Lines 31-38. *)
Definition influencePrompt (influence : Q) : jsstring :=
  if gt influence 70 then Clause.adhereClosely
  else if gt influence 30 then Clause.strongReference
  else Clause.looseInspiration.

(** Lines 41-46. *)
Definition qualityPrompt (outputQuality : jsstring) : jsstring :=
  if strict_eq outputQuality (str "high") then Clause.highQuality
  else Clause.standardQuality.

(** Line 49. *)
Definition facePreservationInstruction : jsstring :=
  str " It is absolutely critical to preserve the person's face from the original image perfectly. Do not alter the facial features, structure, or identity in any way.".

(** Line 51. *)
Definition finalPrompt
  (basePrompt : jsstring) (influence : Q)
  (characterDescription sceneDescription outputQuality : jsstring) : jsstring :=
  fullPrompt basePrompt characterDescription sceneDescription
    ++ influencePrompt influence
    ++ facePreservationInstruction
    ++ qualityPrompt outputQuality.

(* ------------------------------------------------------------------ *)
(** ** Values of the remote interface and of the App *)

(** The [inlineData] of a part: base64 text and its MIME type. *)
Record InlineData := { data : jsstring; mimeType : jsstring }.

(** A content part: inline binary data, text, both or neither. *)
Record Part := { inlineData : option InlineData; text : option jsstring }.

Record Content := { parts : list Part }.

Inductive Modality := IMAGE | TEXT | AUDIO.

(** The argument of [ai.models.generateContent]. *)
Record GenerateContentParameters := {
  model : jsstring;
  contents : Content;
  responseModalities : list Modality
}.

Record Candidate := { content : Content }.

Record GenerateContentResponse := { candidates : list Candidate }.

(** A browser [File]: name, MIME type and the bytes of its blob. *)
Record File := { file_name : jsstring; file_type : jsstring; file_bytes : list N }.

(** The [useState] cells of [App] (App.tsx, lines 31-40). *)
Record AppState := {
  uploadedImage : option File;
  generatedImage : option jsstring;
  isLoading : bool;
  isRemovingBackground : bool;
  error : option jsstring;
  selectedStyle : jsstring;
  referenceInfluence : Q;
  characterDescription : jsstring;
  sceneDescription : jsstring;
  outputQuality : jsstring
}.

(** One call of a state setter. *)
Inductive Update :=
| setUploadedImage (f : option File)
| setGeneratedImage (url : option jsstring)
| setIsLoading (b : bool)
| setIsRemovingBackground (b : bool)
| setError (msg : option jsstring)
| setSelectedStyle (id : jsstring)
| setReferenceInfluence (n : Q)
| setCharacterDescription (s : jsstring)
| setSceneDescription (s : jsstring)
| setOutputQuality (s : jsstring).

Definition apply_update (st : AppState) (u : Update) : AppState :=
  match u with
  | setUploadedImage f =>
      {| uploadedImage := f; generatedImage := generatedImage st;
         isLoading := isLoading st; isRemovingBackground := isRemovingBackground st;
         error := error st; selectedStyle := selectedStyle st;
         referenceInfluence := referenceInfluence st;
         characterDescription := characterDescription st;
         sceneDescription := sceneDescription st; outputQuality := outputQuality st |}
  | setGeneratedImage g =>
      {| uploadedImage := uploadedImage st; generatedImage := g;
         isLoading := isLoading st; isRemovingBackground := isRemovingBackground st;
         error := error st; selectedStyle := selectedStyle st;
         referenceInfluence := referenceInfluence st;
         characterDescription := characterDescription st;
         sceneDescription := sceneDescription st; outputQuality := outputQuality st |}
  | setIsLoading b =>
      {| uploadedImage := uploadedImage st; generatedImage := generatedImage st;
         isLoading := b; isRemovingBackground := isRemovingBackground st;
         error := error st; selectedStyle := selectedStyle st;
         referenceInfluence := referenceInfluence st;
         characterDescription := characterDescription st;
         sceneDescription := sceneDescription st; outputQuality := outputQuality st |}
  | setIsRemovingBackground b =>
      {| uploadedImage := uploadedImage st; generatedImage := generatedImage st;
         isLoading := isLoading st; isRemovingBackground := b;
         error := error st; selectedStyle := selectedStyle st;
         referenceInfluence := referenceInfluence st;
         characterDescription := characterDescription st;
         sceneDescription := sceneDescription st; outputQuality := outputQuality st |}
  | setError e =>
      {| uploadedImage := uploadedImage st; generatedImage := generatedImage st;
         isLoading := isLoading st; isRemovingBackground := isRemovingBackground st;
         error := e; selectedStyle := selectedStyle st;
         referenceInfluence := referenceInfluence st;
         characterDescription := characterDescription st;
         sceneDescription := sceneDescription st; outputQuality := outputQuality st |}
  | setSelectedStyle s =>
      {| uploadedImage := uploadedImage st; generatedImage := generatedImage st;
         isLoading := isLoading st; isRemovingBackground := isRemovingBackground st;
         error := error st; selectedStyle := s;
         referenceInfluence := referenceInfluence st;
         characterDescription := characterDescription st;
         sceneDescription := sceneDescription st; outputQuality := outputQuality st |}
  | setReferenceInfluence n =>
      {| uploadedImage := uploadedImage st; generatedImage := generatedImage st;
         isLoading := isLoading st; isRemovingBackground := isRemovingBackground st;
         error := error st; selectedStyle := selectedStyle st;
         referenceInfluence := n;
         characterDescription := characterDescription st;
         sceneDescription := sceneDescription st; outputQuality := outputQuality st |}
  | setCharacterDescription s =>
      {| uploadedImage := uploadedImage st; generatedImage := generatedImage st;
         isLoading := isLoading st; isRemovingBackground := isRemovingBackground st;
         error := error st; selectedStyle := selectedStyle st;
         referenceInfluence := referenceInfluence st;
         characterDescription := s;
         sceneDescription := sceneDescription st; outputQuality := outputQuality st |}
  | setSceneDescription s =>
      {| uploadedImage := uploadedImage st; generatedImage := generatedImage st;
         isLoading := isLoading st; isRemovingBackground := isRemovingBackground st;
         error := error st; selectedStyle := selectedStyle st;
         referenceInfluence := referenceInfluence st;
         characterDescription := characterDescription st;
         sceneDescription := s; outputQuality := outputQuality st |}
  | setOutputQuality s =>
      {| uploadedImage := uploadedImage st; generatedImage := generatedImage st;
         isLoading := isLoading st; isRemovingBackground := isRemovingBackground st;
         error := error st; selectedStyle := selectedStyle st;
         referenceInfluence := referenceInfluence st;
         characterDescription := characterDescription st;
         sceneDescription := sceneDescription st; outputQuality := s |}
  end.

(** The initial state of [App] (the arguments of the [useState] calls). *)
Definition initialState : AppState :=
  {| uploadedImage := None; generatedImage := None;
     isLoading := false; isRemovingBackground := false;
     error := None; selectedStyle := [];
     referenceInfluence := 75;
     characterDescription := []; sceneDescription := [];
     outputQuality := str "standard" |}.

(* ------------------------------------------------------------------ *)
(** ** Exceptions and the event log *)

(** A thrown value: an [Error] object with its [message], or anything else
    (a rejected [FileReader] hands over a progress event, for instance). *)
Inductive thrown :=
| JsError (message : jsstring)
| NonError (description : jsstring).

Inductive result (A : Type) :=
| Returned (a : A)
| Thrown (e : thrown).
Arguments Returned {A} a.
Arguments Thrown {A} e.

(** What a run does to the outside, in program order. *)
Inductive Event :=
| RemoteCall (req : GenerateContentParameters)
| ReadFile (f : File)
| Fetch (url : jsstring)
| ConsoleError (label : option jsstring) (e : thrown)
| SetState (u : Update).

(** A computation: its log and how it ended. *)
Definition M (A : Type) : Type := list Event * result A.

Definition ret {A} (a : A) : M A := ([], Returned a).

Definition throw {A} (e : thrown) : M A := ([], Thrown e).

Definition bind {A B} (m : M A) (k : A -> M B) : M B :=
  match m with
  | (log, Returned a) => let (log', r) := k a in (log ++ log', r)
  | (log, Thrown e) => (log, Thrown e)
  end.

(** [try { m } catch (e) { handler e }] *)
Definition try_catch {A} (m : M A) (handler : thrown -> M A) : M A :=
  match m with
  | (log, Returned a) => (log, Returned a)
  | (log, Thrown e) => let (log', r) := handler e in (log ++ log', r)
  end.

(** [try { m } finally { fin }]: [fin] runs either way; the outcome is the
    one of [m] unless [fin] itself throws. *)
Definition try_finally {A} (m : M A) (fin : M unit) : M A :=
  let (log, r) := m in
  let (log', r') := fin in
  (log ++ log', match r' with Returned _ => r | Thrown e => Thrown e end).

Definition emit (e : Event) : M unit := ([e], Returned tt).

Definition set (u : Update) : M unit := emit (SetState u).

Definition console_error (label : option jsstring) (e : thrown) : M unit :=
  emit (ConsoleError label e).

Declare Scope js_scope.
Delimit Scope js_scope with js.
Notation "x <- m ;; k" := (bind m (fun x => k))
  (at level 61, m at next level, right associativity) : js_scope.
Notation "m ;; k" := (bind m (fun _ => k))
  (at level 61, right associativity) : js_scope.

Definition log_of {A} (m : M A) : list Event := fst m.
Definition outcome {A} (m : M A) : result A := snd m.

(** The state after the setter calls of a log, applied in order. *)
Definition step (st : AppState) (e : Event) : AppState :=
  match e with
  | SetState u => apply_update st u
  | _ => st
  end.

Definition final_state (st : AppState) (log : list Event) : AppState :=
  fold_left step log st.

(** Every state a log goes through, the starting one first.  No batching of
    setter calls is assumed: each call is a state of its own. *)
Fixpoint states (st : AppState) (log : list Event) : list AppState :=
  match log with
  | [] => [st]
  | e :: log' => st :: states (step st e) log'
  end.

(** The remote calls of a log. *)
Fixpoint remote_calls (log : list Event) : list GenerateContentParameters :=
  match log with
  | [] => []
  | RemoteCall req :: log' => req :: remote_calls log'
  | _ :: log' => remote_calls log'
  end.

(** The setter calls of a log. *)
Fixpoint updates (log : list Event) : list Update :=
  match log with
  | [] => []
  | SetState u :: log' => u :: updates log'
  | _ :: log' => updates log'
  end.

(* ------------------------------------------------------------------ *)
(** ** constants.ts: the style catalogue *)

Record StyleOption := { id : jsstring; name : jsstring; prompt : jsstring }.

Definition styleOptions : list StyleOption :=
  [ {| id := str "business-professional";
       name := str "Business Professional";
       prompt := str "Transform the person in the image to be wearing professional business attire, suitable for an office or corporate setting. Keep the original face and background mostly intact." |};
    {| id := str "evening-gown";
       name := str "Evening Gown / Formal Wear";
       prompt := str "Redress the person in the image in an elegant evening gown or a formal suit. The setting should look like a gala or a formal event. Preserve the original facial features." |};
    {| id := str "cyberpunk";
       name := str "Cyberpunk";
       prompt := str "Reimagine the person in the image as a cyberpunk character. Add futuristic clothing, neon lighting effects, and subtle cybernetic enhancements, but keep the person recognizable." |};
    {| id := str "fantasy-adventurer";
       name := str "Fantasy Adventurer";
       prompt := str "Change the person's clothing into that of a fantasy adventurer (like a ranger or a mage). Add a fitting, magical, or natural background while maintaining the person's face." |} ].

(* ------------------------------------------------------------------ *)
(** ** The service and the handlers, over the outside world *)

Local Open Scope js_scope.

Module Msg.

(** geminiService.ts, lines 80, 84, 116, 120. *)
Definition noImage : thrown :=
  JsError (str "No image data found in the Gemini API response.").
Definition generateFailed : thrown :=
  JsError (str "Failed to generate image. Please check the console for more details.").
Definition noImageBackground : thrown :=
  JsError (str "No image data found in the Gemini API response for background removal.").
Definition removeFailed : thrown :=
  JsError (str "Failed to remove background. Please check the console for more details.").

(** Reading [.content] of [candidates[0]] when there is no candidate. *)
Definition noCandidate : thrown :=
  JsError (str "Cannot read properties of undefined (reading 'content')").

(** App.tsx, lines 51, 68, 76, 90, 97. *)
Definition uploadFirst : jsstring := str "Please upload an image first.".
Definition unknownRemoval : jsstring :=
  str "An unknown error occurred during background removal.".
Definition uploadAndSelect : jsstring :=
  str "Please upload an image and select a style.".
Definition invalidStyle : thrown := JsError (str "Invalid style selected.").
Definition unknownGeneration : jsstring :=
  str "An unknown error occurred during image generation.".

End Msg.

(** The [for (const part of ...parts)] loop of lines 74-78 and 110-114:
    the [data] of the first part whose [inlineData] is there, if any. *)
Fixpoint firstInlineData (ps : list Part) : option jsstring :=
  match ps with
  | [] => None
  | part :: rest =>
      match inlineData part with
      | Some d => Some (data d)
      | None => firstInlineData rest
      end
  end.

(** [response.candidates[0].content.parts] *)
Definition responseParts (response : GenerateContentResponse) : M (list Part) :=
  match candidates response with
  | [] => throw Msg.noCandidate
  | candidate :: _ => ret (parts (content candidate))
  end.

(** [err instanceof Error ? err.message : fallback] *)
Definition messageOr (err : thrown) (fallback : jsstring) : jsstring :=
  match err with
  | JsError message => message
  | NonError _ => fallback
  end.

Section World.

(** The hosted model: what [ai.models.generateContent] resolves or rejects
    with, for a request. *)
Variable generateContent :
  GenerateContentParameters -> result GenerateContentResponse.

(** [fileToBase64] (App.tsx, lines 8-21): the base64 payload the browser's
    [FileReader] yields for a file, or what it rejects with. *)
Variable readAsBase64 : File -> result jsstring.

(** [fetch(url)] followed by [res.blob()]: the bytes behind a data URL. *)
Variable fetchBlob : jsstring -> result (list N).

Definition callGenerateContent (req : GenerateContentParameters)
  : M GenerateContentResponse :=
  (([RemoteCall req], generateContent req) : M GenerateContentResponse).

(** The request both operations build: the image, then the instruction. *)
Definition request (base64ImageData mimeType instruction : jsstring)
  : GenerateContentParameters :=
  {| model := str "gemini-2.5-flash-image";
     contents :=
       {| parts :=
            [ {| inlineData :=
                   Some {| data := base64ImageData; mimeType := mimeType |};
                 text := None |};
              {| inlineData := None; text := Some instruction |} ] |};
     responseModalities := [IMAGE] |}.

(** geminiService.ts, lines 10-86. *)
Definition generateImageFromImage
  (base64ImageData mimeType basePrompt : jsstring) (influence : Q)
  (characterDescription sceneDescription outputQuality : jsstring)
  : M jsstring :=
  try_catch
    (let finalPrompt :=
       finalPrompt basePrompt influence
         characterDescription sceneDescription outputQuality in
     response <- callGenerateContent
                   (request base64ImageData mimeType finalPrompt) ;;
     ps <- responseParts response ;;
     match firstInlineData ps with
     | Some bytes => ret bytes
     | None => throw Msg.noImage
     end)
    (fun error =>
       console_error (Some (str "Error calling Gemini API:")) error ;;
       throw Msg.generateFailed).

Definition removeBackgroundInstruction : jsstring :=
  str "Remove the background from the image, making it transparent. The main subject should be perfectly preserved. Output a PNG with a transparent background.".

(** geminiService.ts, lines 88-122. *)
Definition removeImageBackground (base64ImageData mimeType : jsstring)
  : M jsstring :=
  try_catch
    (response <- callGenerateContent
                   (request base64ImageData mimeType
                      removeBackgroundInstruction) ;;
     ps <- responseParts response ;;
     match firstInlineData ps with
     | Some bytes => ret bytes
     | None => throw Msg.noImageBackground
     end)
    (fun error =>
       console_error
         (Some (str "Error calling Gemini API for background removal:"))
         error ;;
       throw Msg.removeFailed).

(** App.tsx, lines 8-21. *)
Definition fileToBase64 (file : File) : M jsstring :=
  (([ReadFile file], readAsBase64 file) : M jsstring).

(** App.tsx, lines 23-27. *)
Definition base64ToFile (base64 filename : jsstring) : M File :=
  let url := str "data:image/png;base64," ++ base64 in
  blob <- (([Fetch url], fetchBlob url) : M (list N)) ;;
  ret {| file_name := filename; file_type := str "image/png";
         file_bytes := blob |}.

(** App.tsx, lines 43-47. *)
Definition handleImageUpload (file : File) : M unit :=
  set (setUploadedImage (Some file)) ;;
  set (setGeneratedImage None) ;;
  set (setError None).

(** App.tsx, lines 49-72.  The handler reads the state of the render it
    was created in, [st], throughout. *)
Definition handleRemoveBackgroundClick (st : AppState) : M unit :=
  match uploadedImage st with
  | None => set (setError (Some Msg.uploadFirst))
  | Some uploaded =>
      set (setIsRemovingBackground true) ;;
      set (setError None) ;;
      try_finally
        (try_catch
           (base64ImageData <- fileToBase64 uploaded ;;
            let mimeType := file_type uploaded in
            processedData <- removeImageBackground base64ImageData mimeType ;;
            newImageFile <- base64ToFile processedData
                              (str "bg_removed_" ++ file_name uploaded) ;;
            set (setUploadedImage (Some newImageFile)))
           (fun err =>
              console_error None err ;;
              set (setError (Some (messageOr err Msg.unknownRemoval)))))
        (set (setIsRemovingBackground false))
  end.

(** [styleOptions.find(opt => opt.id === selectedStyle)] *)
Definition findStyle (selected : jsstring) : option StyleOption :=
  List.find (fun opt => strict_eq (id opt) selected) styleOptions.

(** App.tsx, lines 74-101. *)
Definition handleGenerateClick (st : AppState) : M unit :=
  match uploadedImage st, truthy (selectedStyle st) with
  | Some uploaded, true =>
      set (setIsLoading true) ;;
      set (setError None) ;;
      set (setGeneratedImage None) ;;
      try_finally
        (try_catch
           (base64ImageData <- fileToBase64 uploaded ;;
            let mimeType := file_type uploaded in
            style <- match findStyle (selectedStyle st) with
                     | Some style => ret style
                     | None => throw Msg.invalidStyle
                     end ;;
            generatedData <- generateImageFromImage base64ImageData mimeType
                               (prompt style) (referenceInfluence st)
                               (characterDescription st) (sceneDescription st)
                               (outputQuality st) ;;
            set (setGeneratedImage
                   (Some (str "data:image/png;base64," ++ generatedData))))
           (fun err =>
              console_error None err ;;
              set (setError (Some (messageOr err Msg.unknownGeneration)))))
        (set (setIsLoading false))
  | _, _ => set (setError (Some Msg.uploadAndSelect))
  end.

End World.

(* ------------------------------------------------------------------ *)
(** ** Notions the statements use *)

(** The optional clause a description contributes: nothing when its trimmed
    text is empty, the quoted clause otherwise. *)
Definition optional (clause : jsstring -> jsstring) (description : jsstring)
  : jsstring :=
  if truthy (trim description) then clause description else [].

(** No part of [ps] carries inline data. *)
Definition textOnly (ps : list Part) : Prop :=
  Forall (fun part => inlineData part = None) ps.

(** Lines 59-63: what the [try] of the background removal obtains before it
    touches the state: the new file, or the value thrown on the way. *)
Definition backgroundRemoved
  (generateContent : GenerateContentParameters -> result GenerateContentResponse)
  (readAsBase64 : File -> result jsstring)
  (fetchBlob : jsstring -> result (list N))
  (uploaded : File) : M File :=
  (base64ImageData <- fileToBase64 readAsBase64 uploaded ;;
   processedData <- removeImageBackground generateContent base64ImageData
                      (file_type uploaded) ;;
   base64ToFile fetchBlob processedData
     (str "bg_removed_" ++ file_name uploaded))%js.

Module Simulated.

(** Responses of a simulated transport. *)
Definition textPart : Part :=
  {| inlineData := None; text := Some (str "Here is your image.") |}.

Definition imagePart (bytes : jsstring) : Part :=
  {| inlineData := Some {| data := bytes; mimeType := str "image/png" |};
     text := None |}.

Definition respond (ps : list Part) : GenerateContentResponse :=
  {| candidates := [ {| content := {| parts := ps |} |} ] |}.

Definition always (response : GenerateContentResponse)
  : GenerateContentParameters -> result GenerateContentResponse :=
  fun _ => Returned response.

Definition failing (e : thrown)
  : GenerateContentParameters -> result GenerateContentResponse :=
  fun _ => Thrown e.

Definition photo : File :=
  {| file_name := str "me.jpg"; file_type := str "image/jpeg";
     file_bytes := [255; 216; 255]%N |}.

(** The browser side: file reads and data-URL fetches. *)
Definition reads (base64 : jsstring) : File -> result jsstring :=
  fun _ => Returned base64.

Definition unreadable : File -> result jsstring :=
  fun _ => Thrown (NonError (str "[object ProgressEvent]")).

Definition fetches (bytes : list N) : jsstring -> result (list N) :=
  fun _ => Returned bytes.

Definition withImage (st : AppState) (file : File) : AppState :=
  apply_update st (setUploadedImage (Some file)).

End Simulated.

(* ------------------------------------------------------------------ *)
(** ** fileToBase64 by what the FileReader does (App.tsx, lines 8-21) *)

(** [s.split(sep)] for a separator of one code unit: the pieces between the
    separators, in order; the empty string gives one empty piece. *)
Fixpoint split (sep : N) (s : jsstring) : list jsstring :=
  match s with
  | [] => [[]]
  | c :: r =>
      if N.eqb c sep then [] :: split sep r
      else match split sep r with
           | piece :: pieces => (c :: piece) :: pieces
           | [] => [[c]]
           end
  end.

(** The code unit of the comma, U+002C. *)
Definition comma : N := 44%N.

Module FileReader.

(** [reader.result] when [onload] fires: a string, or something else
    (an [ArrayBuffer], [null]). *)
Inductive Result :=
| ResultString (s : jsstring)
| ResultOther.

(** How [readAsDataURL] ends: [onload], or [onerror] with its event. *)
Inductive Settled :=
| Load (r : Result)
| Error (event : jsstring).

(** What the promise of [fileToBase64] settles with.  [None] is
    [undefined]: the element 1 of a split that has one piece only. *)
Definition fileToBase64 (settled : Settled) : result (option jsstring) :=
  match settled with
  | Load (ResultString s) => Returned (nth_error (split comma s) 1)
  | Load ResultOther =>
      Thrown (JsError (str "Failed to convert file to base64"))
  | Error event => Thrown (NonError event)
  end.

End FileReader.

(** The URL [base64ToFile] fetches (line 24). *)
Definition dataUrl (base64 : jsstring) : jsstring :=
  str "data:image/png;base64," ++ base64.

(* ------------------------------------------------------------------ *)
(** ** What App renders from its state (App.tsx, lines 206-258) *)

Definition present {A} (o : option A) : bool :=
  match o with Some _ => true | None => false end.

(** Line 208: [disabled] of the background-removal button. *)
Definition removeDisabled (st : AppState) : bool :=
  negb (present (uploadedImage st)) || isLoading st || isRemovingBackground st.

(** Line 222: [disabled] of the generate button. *)
Definition generateDisabled (st : AppState) : bool :=
  negb (present (uploadedImage st)) || negb (truthy (selectedStyle st))
  || isLoading st || isRemovingBackground st.

(** The four things the result column can show. *)
Inductive ResultPanel :=
| Spinner (caption : jsstring)
| ErrorBox (message : jsstring)
| Viewer (imageUrl : jsstring)
| Placeholder.

(** Lines 241-258: spinner while a call runs, else the error if it is a
    non-empty string, else the generated image if it is one, else the
    placeholder. *)
Definition resultPanel (st : AppState) : ResultPanel :=
  if isLoading st || isRemovingBackground st then
    Spinner (if isLoading st then str "Generating your masterpiece..."
             else str "Removing background...")
  else
    let generated :=
      match generatedImage st with
      | Some url => if truthy url then Viewer url else Placeholder
      | None => Placeholder
      end in
    match error st with
    | Some message => if truthy message then ErrorBox message else generated
    | None => generated
    end.

(** Lines 85-93: what the [try] of the generation obtains before it touches
    the state: the generated data, or the value thrown on the way. *)
Definition generated
  (generateContent : GenerateContentParameters -> result GenerateContentResponse)
  (readAsBase64 : File -> result jsstring)
  (st : AppState) (uploaded : File) : M jsstring :=
  (base64ImageData <- fileToBase64 readAsBase64 uploaded ;;
   style <- match findStyle (selectedStyle st) with
            | Some style => ret style
            | None => throw Msg.invalidStyle
            end ;;
   generateImageFromImage generateContent base64ImageData (file_type uploaded)
     (prompt style) (referenceInfluence st)
     (characterDescription st) (sceneDescription st)
     (outputQuality st))%js.

(* ------------------------------------------------------------------ *)
(** ** components/ImageUploader.tsx *)

Module ImageUploader.

(** The two [useState] cells of the component (lines 10-11). *)
Record State := { isDragging : bool; error : option jsstring }.

Definition initial : State := {| isDragging := false; error := None |}.

(** Line 14. *)
Definition validTypes : list jsstring := [str "image/jpeg"; str "image/png"].

Definition invalidType : jsstring :=
  str "Invalid file type. Please upload a JPG or PNG file.".

(** [validTypes.includes(t)] *)
Definition isValidType (t : jsstring) : bool :=
  existsb (fun valid => strict_eq valid t) validTypes.

(** Lines 13-21: the verdict and the component state after it. *)
Definition handleFileValidation (file : File) (u : State) : bool * State :=
  if negb (isValidType (file_type file))
  then (false, {| isDragging := isDragging u; error := Some invalidType |})
  else (true, {| isDragging := isDragging u; error := None |}).

(** Lines 23-27.  [onImageUpload] is the prop the parent passes in; the
    result is the component state and what the call does to the parent. *)
Definition handleFileChange (onImageUpload : File -> M unit)
  (file : option File) (u : State) : State * M unit :=
  match file with
  | None => (u, ret tt)
  | Some f =>
      let (valid, u') := handleFileValidation f u in
      if valid then (u', onImageUpload f) else (u', ret tt)
  end.

(** Lines 29-33, 35-39, 41-44. *)
Definition handleDragEnter (u : State) : State :=
  {| isDragging := true; error := error u |}.

Definition handleDragLeave (u : State) : State :=
  {| isDragging := false; error := error u |}.

Definition handleDragOver (u : State) : State := u.

(** Lines 46-54: [files] is [e.dataTransfer.files] ([null] is the empty
    list). *)
Definition handleDrop (onImageUpload : File -> M unit)
  (files : list File) (u : State) : State * M unit :=
  let u := {| isDragging := false; error := error u |} in
  match files with
  | [] => (u, ret tt)
  | first :: _ => handleFileChange onImageUpload (Some first) u
  end.

(** Lines 56-60: [files] is [e.target.files]. *)
Definition onInputChange (onImageUpload : File -> M unit)
  (files : list File) (u : State) : State * M unit :=
  match files with
  | [] => (u, ret tt)
  | first :: _ => handleFileChange onImageUpload (Some first) u
  end.

End ImageUploader.

(* ------------------------------------------------------------------ *)
(** ** States App can be in *)

(** The setters the form controls call directly (lines 123, 147, 160, 175,
    191). *)
Inductive field_update : Update -> Prop :=
| change_style id : field_update (setSelectedStyle id)
| change_influence n : field_update (setReferenceInfluence n)
| change_character s : field_update (setCharacterDescription s)
| change_scene s : field_update (setSceneDescription s)
| change_quality s : field_update (setOutputQuality s).

(** The logs a handler of App can produce when it is started in state [st],
    over every behaviour of the outside world. *)
Inductive handler_run (st : AppState) : list Event -> Prop :=
| run_remove generateContent readAsBase64 fetchBlob :
    handler_run st
      (log_of (handleRemoveBackgroundClick generateContent readAsBase64
                 fetchBlob st))
| run_generate generateContent readAsBase64 :
    handler_run st
      (log_of (handleGenerateClick generateContent readAsBase64 st))
| run_drop files u :
    handler_run st
      (log_of (snd (ImageUploader.handleDrop handleImageUpload files u)))
| run_input files u :
    handler_run st
      (log_of (snd (ImageUploader.onInputChange handleImageUpload files u))).

(** The states App can reach.  A handler started in a reachable state may
    have its setter calls applied at any later time, in between the setter
    calls of other handlers: every interleaving of running handlers is
    covered (and more). *)
Inductive reachable : AppState -> Prop :=
| reach_initial : reachable initialState
| reach_field st u :
    reachable st -> field_update u -> reachable (apply_update st u)
| reach_handler st started log u :
    reachable st -> reachable started -> handler_run started log ->
    In u (updates log) -> reachable (apply_update st u).

(** The uploaded image, if any, is a JPEG or a PNG, and the generated
    image, if any, is a PNG data URL. *)
Definition wellFormed (st : AppState) : Prop :=
  (forall file, uploadedImage st = Some file ->
                file_type file = str "image/jpeg"
                \/ file_type file = str "image/png")
  /\ (forall url, generatedImage st = Some url ->
                  exists base64, url = str "data:image/png;base64," ++ base64).

(* ------------------------------------------------------------------ *)
(** * Properties *)

(** ** Strings *)

Lemma strict_eq_spec (a b : jsstring) : strict_eq a b = true <-> a = b.
Proof.
  revert b; induction a as [|x a IH]; intros [|y b]; simpl;
    try (split; [discriminate | congruence]); try tauto.
  rewrite andb_true_iff, N.eqb_eq, IH.
  split; [intros [-> ->]; reflexivity | intros E; injection E; auto].
Qed.

Lemma strict_eq_false (a b : jsstring) : a <> b -> strict_eq a b = false.
Proof.
  intros Hne. destruct (strict_eq a b) eqn:E; [|reflexivity].
  apply strict_eq_spec in E. contradiction.
Qed.

Lemma startsWith_spec (x s : jsstring) :
  startsWith x s = true <-> exists post, s = x ++ post.
Proof.
  revert s; induction x as [|a x IH]; intros s; simpl.
  - split; [intros _; exists s; reflexivity | reflexivity].
  - destruct s as [|b s].
    + split; [discriminate | intros [post E]; discriminate].
    + rewrite andb_true_iff, N.eqb_eq, IH. split.
      * intros [-> [post ->]]. exists post. reflexivity.
      * intros [post E]. injection E as -> ->. split; eauto.
Qed.

Lemma includes_here (x s : jsstring) :
  startsWith x s = true -> includes x s = true.
Proof. intros H. destruct s; simpl in *; rewrite H; reflexivity. Qed.

Lemma includes_spec (x s : jsstring) : includes x s = true <-> Contains x s.
Proof.
  split.
  - induction s as [|b s IH]; simpl; rewrite orb_true_iff.
    + intros [H|H]; [|discriminate].
      apply startsWith_spec in H as [post E]. exists [], post. exact E.
    + intros [H|H].
      * apply startsWith_spec in H as [post E]. exists [], post. exact E.
      * destruct (IH H) as (pre & post & ->). exists (b :: pre), post. reflexivity.
  - intros (pre & post & ->). induction pre as [|b pre IH].
    + apply includes_here, startsWith_spec. exists post. reflexivity.
    + simpl. rewrite IH. apply orb_true_r.
Qed.

Lemma not_includes (x s : jsstring) : includes x s = false -> ~ Contains x s.
Proof.
  intros E C. apply includes_spec in C. rewrite C in E. discriminate.
Qed.

Lemma truthy_false (s : jsstring) : truthy s = false <-> s = [].
Proof. destruct s; simpl; split; congruence. Qed.

Lemma trimStart_nil (s : jsstring) : trimStart s = [] <-> blank s.
Proof.
  unfold blank. induction s as [|c r IH]; simpl.
  - split; [constructor | reflexivity].
  - destruct (isWhiteSpace c) eqn:W.
    + rewrite IH. split; [intros H; constructor; assumption
                         | intros H; inversion H; assumption].
    + split; [discriminate | intros H; inversion H; congruence].
Qed.

Lemma blank_trimStart (s : jsstring) : blank (trimStart s) <-> blank s.
Proof.
  unfold blank. induction s as [|c r IH]; simpl; [tauto|].
  destruct (isWhiteSpace c) eqn:W; [|tauto].
  rewrite IH. split; [intros H; constructor; assumption
                     | intros H; inversion H; assumption].
Qed.

Lemma blank_rev (s : jsstring) : blank (rev s) <-> blank s.
Proof.
  unfold blank. split; intros H.
  - rewrite <- (rev_involutive s). apply Forall_rev. exact H.
  - apply Forall_rev. exact H.
Qed.

(** [s.trim()] is falsy exactly when [s] is blank. *)
Lemma trim_falsy (s : jsstring) : truthy (trim s) = false <-> blank s.
Proof.
  rewrite truthy_false. unfold trim, trimEnd.
  rewrite <- blank_trimStart, <- blank_rev, <- trimStart_nil.
  split; intros H.
  - rewrite <- (rev_involutive (trimStart _)), H. reflexivity.
  - rewrite H. reflexivity.
Qed.

Lemma trim_truthy (s : jsstring) : truthy (trim s) = true <-> ~ blank s.
Proof.
  rewrite <- trim_falsy. destruct (truthy (trim s)); split; congruence.
Qed.

Lemma Contains_app_l (x s t : jsstring) : Contains x s -> Contains x (s ++ t).
Proof.
  intros (pre & post & ->). exists pre, (post ++ t).
  rewrite <- !app_assoc. reflexivity.
Qed.

Lemma Contains_app_r (x s t : jsstring) : Contains x t -> Contains x (s ++ t).
Proof.
  intros (pre & post & ->). exists (s ++ pre), post.
  rewrite <- !app_assoc. reflexivity.
Qed.

Lemma Contains_refl (x : jsstring) : Contains x x.
Proof. exists [], []. rewrite app_nil_r. reflexivity. Qed.

Create HintDb prompt.
#[local] Hint Resolve Contains_app_l Contains_app_r Contains_refl : prompt.

(** ** The prompt composer *)

Lemma fullPrompt_unfold (basePrompt characterDescription sceneDescription : jsstring) :
  fullPrompt basePrompt characterDescription sceneDescription
  = basePrompt ++ optional Clause.character characterDescription
               ++ optional Clause.scene sceneDescription.
Proof.
  unfold fullPrompt, optional.
  destruct (truthy (trim characterDescription)),
           (truthy (trim sceneDescription)); cbv beta iota zeta;
    rewrite ?app_nil_r, <- ?app_assoc; reflexivity.
Qed.

Lemma finalPrompt_unfold b i c s q :
  finalPrompt b i c s q
  = b ++ optional Clause.character c ++ optional Clause.scene s
      ++ influencePrompt i ++ facePreservationInstruction ++ qualityPrompt q.
Proof.
  unfold finalPrompt. rewrite fullPrompt_unfold, <- !app_assoc. reflexivity.
Qed.

Lemma influence_clauses_distinct :
  Clause.adhereClosely <> Clause.strongReference
  /\ Clause.adhereClosely <> Clause.looseInspiration
  /\ Clause.strongReference <> Clause.looseInspiration.
Proof. repeat split; intros E; vm_compute in E; discriminate E. Qed.

Lemma gt_spec (x y : Q) : BoolSpec (y < x)%Q (x <= y)%Q (gt x y).
Proof.
  unfold gt. destruct (x ?= y)%Q eqn:C; constructor.
  - apply Qeq_alt in C. rewrite C. apply Qle_refl.
  - apply Qlt_alt in C. apply Qlt_le_weak. exact C.
  - apply Qgt_alt in C. exact C.
Qed.

Lemma influencePrompt_cases (influence : Q) :
  (70 < influence /\ influencePrompt influence = Clause.adhereClosely)%Q
  \/ (30 < influence <= 70 /\ influencePrompt influence = Clause.strongReference)%Q
  \/ (influence <= 30 /\ influencePrompt influence = Clause.looseInspiration)%Q.
Proof.
  unfold influencePrompt.
  destruct (gt_spec influence 70); [left; split; [assumption | reflexivity]|].
  destruct (gt_spec influence 30); [right; left | right; right];
    (split; [auto | reflexivity]).
Qed.

(** C2. For every influence value in [0,100] the composer appends exactly one
    of the three influence clauses, between the descriptions and the
    face-preservation clause, chosen with exclusive lower bounds: above 70
    the adhere-closely clause, above 30 and up to 70 the strong-reference
    clause, up to 30 the loose-inspiration clause.  30 is in the loose band,
    70 in the strong-reference band, 71 in the adhere-closely band. *)
Theorem influence_bands
  (basePrompt characterDescription sceneDescription outputQuality : jsstring)
  (influence : Q) :
  (0 <= influence <= 100)%Q ->
  let clause := influencePrompt influence in
  finalPrompt basePrompt influence characterDescription sceneDescription
    outputQuality
  = fullPrompt basePrompt characterDescription sceneDescription
      ++ clause ++ facePreservationInstruction ++ qualityPrompt outputQuality
  /\ (70 < influence ->
        clause = Clause.adhereClosely
        /\ clause <> Clause.strongReference
        /\ clause <> Clause.looseInspiration)%Q
  /\ (30 < influence <= 70 ->
        clause = Clause.strongReference
        /\ clause <> Clause.adhereClosely
        /\ clause <> Clause.looseInspiration)%Q
  /\ (influence <= 30 ->
        clause = Clause.looseInspiration
        /\ clause <> Clause.adhereClosely
        /\ clause <> Clause.strongReference)%Q
  /\ influencePrompt 30 = Clause.looseInspiration
  /\ influencePrompt 70 = Clause.strongReference
  /\ influencePrompt 71 = Clause.adhereClosely.
Proof.
  intros _ clause. subst clause.
  destruct influence_clauses_distinct as (Das & Dal & Dsl).
  split; [reflexivity|].
  repeat split; try reflexivity;
    destruct (influencePrompt_cases influence) as [[B E]|[[B E]|[B E]]];
    try lra; rewrite E; congruence.
Qed.

Lemma influence_bands_witness :
  (0 <= 30 <= 100)%Q
  /\ influencePrompt 30 = Clause.looseInspiration
  /\ influencePrompt 30 <> Clause.strongReference.
Proof.
  assert (H : (0 <= 30 <= 100)%Q) by (split; discriminate).
  split; [exact H|].
  destruct (influence_bands (str "Base") [] [] (str "standard") H)
    as (_ & _ & _ & L & _).
  destruct L as (E & _ & D); [discriminate|]. split; assumption.
Defined.

(** C3. The composer concatenates, in this order: the base style text, the
    character clause if any, the scene clause if any, the influence clause,
    the face-preservation clause, the quality clause.  For base
    "Transform to cyberpunk", influence 85, character "a scarred pilot", an
    empty scene and quality "high" the output is the base text, the quoted
    pilot clause, the adhere-closely clause, the face-preservation sentence
    and the HD 2K-4K clause, in this order, and has no scene clause. *)
Theorem prompt_order :
  (forall basePrompt influence characterDescription sceneDescription
          outputQuality,
      finalPrompt basePrompt influence characterDescription sceneDescription
        outputQuality
      = basePrompt
          ++ (if truthy (trim characterDescription)
              then Clause.character characterDescription else [])
          ++ (if truthy (trim sceneDescription)
              then Clause.scene sceneDescription else [])
          ++ influencePrompt influence
          ++ facePreservationInstruction
          ++ qualityPrompt outputQuality)
  /\ let base := str "Transform to cyberpunk" in
     let pilot := str "a scarred pilot" in
     let out := finalPrompt base 85 pilot [] (str "high") in
     out = base ++ Clause.characterLead ++ dquote ++ pilot ++ dquote ++ str "."
             ++ Clause.adhereClosely ++ facePreservationInstruction
             ++ Clause.highQuality
     /\ InOrder [ base; dquote ++ pilot ++ dquote; Clause.adhereClosely;
                  facePreservationInstruction; Clause.highQuality ] out
     /\ ~ Contains Clause.sceneLead out.
Proof.
  split; [intros; apply finalPrompt_unfold|].
  cbv zeta. split; [reflexivity|]. split.
  - exists [], (Clause.character (str "a scarred pilot") ++ Clause.adhereClosely
                ++ facePreservationInstruction ++ Clause.highQuality).
    split; [reflexivity|].
    exists Clause.characterLead,
           (str "." ++ Clause.adhereClosely ++ facePreservationInstruction
              ++ Clause.highQuality).
    split; [reflexivity|].
    exists (str "."), (facePreservationInstruction ++ Clause.highQuality).
    split; [reflexivity|].
    exists [], Clause.highQuality. split; [reflexivity|].
    exists [], []. split; [reflexivity | exact I].
  - apply not_includes. vm_compute. reflexivity.
Qed.

(** C4. For the character and for the scene description: a blank text (empty
    or white space only) adds no clause to the composed prompt; a text that
    is not blank adds its clause, in which the text stands unchanged between
    double quotes, so the quoted text occurs in the composed prompt. *)
Theorem optional_clauses
  (basePrompt characterDescription sceneDescription outputQuality : jsstring)
  (influence : Q) :
  let out := finalPrompt basePrompt influence characterDescription
               sceneDescription outputQuality in
  exists characterClause sceneClause,
    out = basePrompt ++ characterClause ++ sceneClause
            ++ influencePrompt influence ++ facePreservationInstruction
            ++ qualityPrompt outputQuality
    /\ (blank characterDescription -> characterClause = [])
    /\ (~ blank characterDescription ->
          characterClause
          = Clause.characterLead ++ dquote ++ characterDescription ++ dquote
              ++ str "."
          /\ Contains (dquote ++ characterDescription ++ dquote) out)
    /\ (blank sceneDescription -> sceneClause = [])
    /\ (~ blank sceneDescription ->
          sceneClause
          = Clause.sceneLead ++ dquote ++ sceneDescription ++ dquote ++ str "."
          /\ Contains (dquote ++ sceneDescription ++ dquote) out).
Proof.
  intros out. subst out.
  exists (optional Clause.character characterDescription),
         (optional Clause.scene sceneDescription).
  split; [apply finalPrompt_unfold|].
  rewrite finalPrompt_unfold. unfold optional.
  repeat split.
  - intros B. apply trim_falsy in B. rewrite B. reflexivity.
  - apply trim_truthy in H. rewrite H. reflexivity.
  - apply trim_truthy in H. rewrite H.
    exists (basePrompt ++ Clause.characterLead),
      (str "." ++ (if truthy (trim sceneDescription)
                   then Clause.scene sceneDescription else [])
         ++ influencePrompt influence ++ facePreservationInstruction
         ++ qualityPrompt outputQuality).
    unfold Clause.character. rewrite <- !app_assoc. reflexivity.
  - intros B. apply trim_falsy in B. rewrite B. reflexivity.
  - apply trim_truthy in H. rewrite H. reflexivity.
  - apply trim_truthy in H. rewrite H.
    exists (basePrompt
              ++ (if truthy (trim characterDescription)
                  then Clause.character characterDescription else [])
              ++ Clause.sceneLead),
      (str "." ++ influencePrompt influence ++ facePreservationInstruction
         ++ qualityPrompt outputQuality).
    unfold Clause.scene. rewrite <- !app_assoc. reflexivity.
Qed.

Lemma blank_spaces : blank [32; 9; 160]%N.
Proof. repeat constructor. Qed.

Lemma not_blank_padded : ~ blank (str " x ").
Proof.
  intros B. apply trim_falsy in B. vm_compute in B. discriminate B.
Qed.

Lemma optional_clauses_witness :
  let out := finalPrompt (str "Base") 50 [32; 9; 160]%N (str " x ")
               (str "standard") in
  blank [32; 9; 160]%N
  /\ ~ blank (str " x ")
  /\ out = str "Base" ++ Clause.scene (str " x ")
             ++ Clause.strongReference ++ facePreservationInstruction
             ++ Clause.standardQuality
  /\ Contains (dquote ++ str " x " ++ dquote) out.
Proof.
  cbv zeta.
  destruct (optional_clauses (str "Base") [32; 9; 160]%N (str " x ")
              (str "standard") 50)
    as (cc & sc & E & Hc & _ & _ & Hs).
  specialize (Hc blank_spaces).
  destruct (Hs not_blank_padded) as (Es & C).
  split; [exact blank_spaces|].
  split; [exact not_blank_padded|].
  split; [|exact C].
  rewrite E, Hc, Es. reflexivity.
Defined.

(** C5. Whatever the base prompt, the influence, the character text, the
    scene text and the quality selector, the composed prompt contains the
    face-preservation clause. *)
Theorem face_preservation_always
  (basePrompt characterDescription sceneDescription outputQuality : jsstring)
  (influence : Q) :
  Contains facePreservationInstruction
    (finalPrompt basePrompt influence characterDescription sceneDescription
       outputQuality).
Proof.
  unfold finalPrompt. auto 6 with prompt.
Qed.

(** C6. For every quality selector other than "high" the composed prompt
    ends with the standard-quality (720p) clause; for "high" it ends with
    the HD, photorealistic, 2K-4K clause. *)
Theorem quality_clause
  (basePrompt characterDescription sceneDescription outputQuality : jsstring)
  (influence : Q) :
  (outputQuality <> str "high" ->
     qualityPrompt outputQuality = Clause.standardQuality
     /\ EndsWith Clause.standardQuality
          (finalPrompt basePrompt influence characterDescription
             sceneDescription outputQuality))
  /\ qualityPrompt (str "high") = Clause.highQuality
  /\ EndsWith Clause.highQuality
       (finalPrompt basePrompt influence characterDescription
          sceneDescription (str "high")).
Proof.
  assert (Ends : forall q,
             EndsWith (qualityPrompt q)
               (finalPrompt basePrompt influence characterDescription
                  sceneDescription q)).
  { intros q. unfold finalPrompt.
    exists (fullPrompt basePrompt characterDescription sceneDescription
              ++ influencePrompt influence ++ facePreservationInstruction).
    rewrite <- !app_assoc. reflexivity. }
  split.
  - intros Hne.
    assert (Q : qualityPrompt outputQuality = Clause.standardQuality).
    { unfold qualityPrompt. rewrite (strict_eq_false Hne). reflexivity. }
    split; [exact Q|]. rewrite <- Q. apply Ends.
  - split; [reflexivity|]. apply (Ends (str "high")).
Qed.

Lemma quality_clause_witness :
  str "High" <> str "high"
  /\ EndsWith Clause.standardQuality
       (finalPrompt (str "Base") 85 [] [] (str "High")).
Proof.
  assert (Hne : str "High" <> str "high")
    by (intros E; vm_compute in E; discriminate E).
  split; [exact Hne|].
  destruct (quality_clause (str "Base") [] [] (str "High") 85) as (S & _).
  exact (proj2 (S Hne)).
Defined.

(** ** The response scan *)

Lemma firstInlineData_none (ps : list Part) :
  firstInlineData ps = None <-> textOnly ps.
Proof.
  unfold textOnly. induction ps as [|part rest IH]; simpl.
  - split; [constructor | reflexivity].
  - destruct (inlineData part) as [d|] eqn:E.
    + split; [discriminate | intros H; inversion H; congruence].
    + rewrite IH. split; [intros H; constructor; assumption
                         | intros H; inversion H; assumption].
Qed.

Lemma firstInlineData_skip (pre : list Part) (rest : list Part) :
  textOnly pre -> firstInlineData (pre ++ rest) = firstInlineData rest.
Proof.
  induction 1 as [|part pre E _ IH]; simpl; [reflexivity|].
  rewrite E. exact IH.
Qed.

Lemma firstInlineData_first (ps : list Part) :
  (exists part, In part ps /\ inlineData part <> None) ->
  exists pre part image post,
    ps = pre ++ part :: post
    /\ textOnly pre
    /\ inlineData part = Some image
    /\ firstInlineData ps = Some (data image).
Proof.
  induction ps as [|p rest IH]; intros (part & Hin & Hd).
  - destruct Hin.
  - destruct (inlineData p) as [d|] eqn:E.
    + exists [], p, d, rest. simpl. rewrite E.
      repeat split; constructor.
    + destruct IH as (pre & q & image & post & -> & Hpre & Hq & Hf).
      { destruct Hin as [->|Hin]; [congruence | eauto]. }
      exists (p :: pre), q, image, post. simpl. rewrite E.
      repeat split; try assumption. constructor; assumption.
Qed.

Section Service.

Variable generateContent :
  GenerateContentParameters -> result GenerateContentResponse.
Variables base64ImageData mimeType basePrompt : jsstring.
Variable influence : Q.
Variables characterDescription sceneDescription outputQuality : jsstring.

(** The two requests the operations send. *)
Let transformRequest : GenerateContentParameters :=
  request base64ImageData mimeType
    (finalPrompt basePrompt influence characterDescription sceneDescription
       outputQuality).
Let removeRequest : GenerateContentParameters :=
  request base64ImageData mimeType removeBackgroundInstruction.

Let transform : M jsstring :=
  generateImageFromImage generateContent base64ImageData mimeType basePrompt
    influence characterDescription sceneDescription outputQuality.
Let remove : M jsstring :=
  removeImageBackground generateContent base64ImageData mimeType.

(** How the two operations end, by what the remote call and the scan give. *)
Lemma generateImageFromImage_run :
  transform =
  match generateContent transformRequest with
  | Thrown e =>
      ([RemoteCall transformRequest;
        ConsoleError (Some (str "Error calling Gemini API:")) e],
       Thrown Msg.generateFailed)
  | Returned response =>
      match candidates response with
      | [] =>
          ([RemoteCall transformRequest;
            ConsoleError (Some (str "Error calling Gemini API:"))
              Msg.noCandidate],
           Thrown Msg.generateFailed)
      | candidate :: _ =>
          match firstInlineData (parts (content candidate)) with
          | Some bytes => ([RemoteCall transformRequest], Returned bytes)
          | None =>
              ([RemoteCall transformRequest;
                ConsoleError (Some (str "Error calling Gemini API:"))
                  Msg.noImage],
               Thrown Msg.generateFailed)
          end
      end
  end.
Proof.
  subst transform transformRequest.
  unfold generateImageFromImage, callGenerateContent, responseParts.
  destruct (generateContent _) as [response|e]; [|reflexivity].
  cbn -[finalPrompt request].
  destruct (candidates response) as [|candidate others]; [reflexivity|].
  cbn -[finalPrompt request].
  destruct (firstInlineData _); reflexivity.
Qed.

Lemma removeImageBackground_run :
  remove =
  match generateContent removeRequest with
  | Thrown e =>
      ([RemoteCall removeRequest;
        ConsoleError
          (Some (str "Error calling Gemini API for background removal:")) e],
       Thrown Msg.removeFailed)
  | Returned response =>
      match candidates response with
      | [] =>
          ([RemoteCall removeRequest;
            ConsoleError
              (Some (str "Error calling Gemini API for background removal:"))
              Msg.noCandidate],
           Thrown Msg.removeFailed)
      | candidate :: _ =>
          match firstInlineData (parts (content candidate)) with
          | Some bytes => ([RemoteCall removeRequest], Returned bytes)
          | None =>
              ([RemoteCall removeRequest;
                ConsoleError
                  (Some (str "Error calling Gemini API for background removal:"))
                  Msg.noImageBackground],
               Thrown Msg.removeFailed)
          end
      end
  end.
Proof.
  subst remove removeRequest.
  unfold removeImageBackground, callGenerateContent, responseParts.
  destruct (generateContent _) as [response|e]; [|reflexivity].
  cbn -[finalPrompt request].
  destruct (candidates response) as [|candidate others]; [reflexivity|].
  cbn -[finalPrompt request].
  destruct (firstInlineData _); reflexivity.
Qed.

End Service.

(** C7. When the parts of the response hold at least one part with inline
    image data, both operations return the data of the first such part;
    so when the first part has none and the second has some, the second
    part's data is what they return. *)
Theorem first_image_part_wins
  (generateContent : GenerateContentParameters -> result GenerateContentResponse)
  (base64ImageData mimeType basePrompt : jsstring) (influence : Q)
  (characterDescription sceneDescription outputQuality : jsstring)
  (response : GenerateContentResponse)
  (candidate : Candidate) (others : list Candidate) :
  let ps := parts (content candidate) in
  let transform :=
    generateImageFromImage generateContent base64ImageData mimeType basePrompt
      influence characterDescription sceneDescription outputQuality in
  let remove :=
    removeImageBackground generateContent base64ImageData mimeType in
  generateContent
    (request base64ImageData mimeType
       (finalPrompt basePrompt influence characterDescription sceneDescription
          outputQuality)) = Returned response ->
  generateContent
    (request base64ImageData mimeType removeBackgroundInstruction)
  = Returned response ->
  candidates response = candidate :: others ->
  (exists part, In part ps /\ inlineData part <> None) ->
  (exists pre part image post,
      ps = pre ++ part :: post
      /\ textOnly pre
      /\ inlineData part = Some image
      /\ outcome transform = Returned (data image)
      /\ outcome remove = Returned (data image))
  /\ (forall first second rest image,
        ps = first :: second :: rest ->
        inlineData first = None ->
        inlineData second = Some image ->
        outcome transform = Returned (data image)
        /\ outcome remove = Returned (data image)).
Proof.
  intros ps transform remove Ht Hr Hc Hex.
  assert (Run : forall bytes, firstInlineData ps = Some bytes ->
                  outcome transform = Returned bytes
                  /\ outcome remove = Returned bytes).
  { intros bytes Hf. subst transform remove.
    rewrite generateImageFromImage_run, removeImageBackground_run.
    cbv zeta. rewrite Ht, Hr, Hc. fold ps. rewrite Hf. split; reflexivity. }
  split.
  - destruct (firstInlineData_first ps Hex)
      as (pre & part & image & post & E & Hpre & Hpart & Hf).
    exists pre, part, image, post. destruct (Run _ Hf). auto.
  - intros first second rest image E Hfirst Hsecond.
    apply Run. rewrite E. simpl. rewrite Hfirst, Hsecond. reflexivity.
Qed.

Lemma first_image_part_wins_witness :
  let gc := Simulated.always
              (Simulated.respond
                 [ Simulated.textPart; Simulated.imagePart (str "QUJD");
                   Simulated.imagePart (str "REVG") ]) in
  outcome (generateImageFromImage gc (str "AAAA") (str "image/png")
             (str "Base") 50 [] [] (str "high")) = Returned (str "QUJD")
  /\ outcome (removeImageBackground gc (str "AAAA") (str "image/png"))
     = Returned (str "QUJD").
Proof.
  cbv zeta.
  refine (proj2 (@first_image_part_wins
            (Simulated.always
               (Simulated.respond
                  [ Simulated.textPart; Simulated.imagePart (str "QUJD");
                    Simulated.imagePart (str "REVG") ]))
            (str "AAAA") (str "image/png") (str "Base") 50 [] [] (str "high")
            _ _ [] eq_refl eq_refl eq_refl _)
          Simulated.textPart (Simulated.imagePart (str "QUJD"))
          [Simulated.imagePart (str "REVG")] _ eq_refl eq_refl eq_refl).
  exists (Simulated.imagePart (str "QUJD")). split.
  - right; left; reflexivity.
  - discriminate.
Defined.

(** C1, as stated, fails.  For a text-only response
    the caller of either operation receives the operation's generic failure,
    the same it receives when the transport fails, and not the no-image
    error. *)
Lemma no_image_error_is_not_distinct :
  let noImage := Simulated.always (Simulated.respond [Simulated.textPart]) in
  let broken := Simulated.failing (JsError (str "429 quota exceeded")) in
  let transform gc :=
    outcome (generateImageFromImage gc (str "AAAA") (str "image/png")
               (str "Base") 50 [] [] (str "high")) in
  let remove gc :=
    outcome (removeImageBackground gc (str "AAAA") (str "image/png")) in
  textOnly [Simulated.textPart]
  /\ transform noImage = Thrown Msg.generateFailed
  /\ transform noImage <> Thrown Msg.noImage
  /\ transform noImage = transform broken
  /\ remove noImage = Thrown Msg.removeFailed
  /\ remove noImage <> Thrown Msg.noImageBackground
  /\ remove noImage = remove broken.
Proof.
  cbv zeta.
  split; [repeat constructor|].
  split; [reflexivity|].
  split; [intros E; vm_compute in E; discriminate E|].
  split; [reflexivity|].
  split; [reflexivity|].
  split; [intros E; vm_compute in E; discriminate E|].
  reflexivity.
Qed.

(** C1 (as the code has it). When no part of the response carries inline
    image data, neither operation returns bytes: both fail.  The no-image
    error is raised inside the operation and written to the console; what
    the caller receives is the operation's generic failure error, the one it
    also receives when the transport fails. *)
Theorem no_image_fails_with_generic_error
  (generateContent : GenerateContentParameters -> result GenerateContentResponse)
  (base64ImageData mimeType basePrompt : jsstring) (influence : Q)
  (characterDescription sceneDescription outputQuality : jsstring)
  (response : GenerateContentResponse)
  (candidate : Candidate) (others : list Candidate) :
  let transformRequest :=
    request base64ImageData mimeType
      (finalPrompt basePrompt influence characterDescription sceneDescription
         outputQuality) in
  let removeRequest :=
    request base64ImageData mimeType removeBackgroundInstruction in
  let transform gc :=
    generateImageFromImage gc base64ImageData mimeType basePrompt
      influence characterDescription sceneDescription outputQuality in
  let remove gc := removeImageBackground gc base64ImageData mimeType in
  generateContent transformRequest = Returned response ->
  generateContent removeRequest = Returned response ->
  candidates response = candidate :: others ->
  textOnly (parts (content candidate)) ->
  transform generateContent
  = ([ RemoteCall transformRequest;
       ConsoleError (Some (str "Error calling Gemini API:")) Msg.noImage ],
     Thrown Msg.generateFailed)
  /\ remove generateContent
     = ([ RemoteCall removeRequest;
          ConsoleError
            (Some (str "Error calling Gemini API for background removal:"))
            Msg.noImageBackground ],
        Thrown Msg.removeFailed)
  /\ (forall bytes,
        outcome (transform generateContent) <> Returned bytes
        /\ outcome (remove generateContent) <> Returned bytes)
  /\ (forall broken e,
        broken transformRequest = Thrown e ->
        outcome (transform broken) = outcome (transform generateContent))
  /\ (forall broken e,
        broken removeRequest = Thrown e ->
        outcome (remove broken) = outcome (remove generateContent)).
Proof.
  intros transformRequest removeRequest transform remove Ht Hr Hc Hnone.
  apply firstInlineData_none in Hnone.
  assert (Et : transform generateContent
               = ([ RemoteCall transformRequest;
                    ConsoleError (Some (str "Error calling Gemini API:"))
                      Msg.noImage ],
                  Thrown Msg.generateFailed)).
  { subst transform. cbv beta. rewrite generateImageFromImage_run. cbv zeta.
    fold transformRequest. rewrite Ht, Hc, Hnone. reflexivity. }
  assert (Er : remove generateContent
               = ([ RemoteCall removeRequest;
                    ConsoleError
                      (Some (str "Error calling Gemini API for background removal:"))
                      Msg.noImageBackground ],
                  Thrown Msg.removeFailed)).
  { subst remove. cbv beta. rewrite removeImageBackground_run. cbv zeta.
    fold removeRequest. rewrite Hr, Hc, Hnone. reflexivity. }
  split; [exact Et|]. split; [exact Er|].
  rewrite Et, Er. split; [|split].
  - intros bytes. split; discriminate.
  - intros broken e Hb. subst transform. cbv beta.
    rewrite generateImageFromImage_run. cbv zeta.
    fold transformRequest. rewrite Hb. reflexivity.
  - intros broken e Hb. subst remove. cbv beta.
    rewrite removeImageBackground_run. cbv zeta.
    fold removeRequest. rewrite Hb. reflexivity.
Qed.

Lemma no_image_fails_with_generic_error_witness :
  let gc := Simulated.always (Simulated.respond [Simulated.textPart]) in
  outcome (generateImageFromImage gc (str "AAAA") (str "image/png")
             (str "Base") 50 [] [] (str "high"))
  = Thrown Msg.generateFailed
  /\ outcome (removeImageBackground gc (str "AAAA") (str "image/png"))
     = Thrown Msg.removeFailed.
Proof.
  cbv zeta.
  assert (T : textOnly [Simulated.textPart]) by (repeat constructor).
  destruct (@no_image_fails_with_generic_error
              (Simulated.always (Simulated.respond [Simulated.textPart]))
              (str "AAAA") (str "image/png") (str "Base") 50 [] [] (str "high")
              _ _ [] eq_refl eq_refl eq_refl T)
    as (Et & Er & _).
  rewrite Et, Er. split; reflexivity.
Defined.

(** ** The handlers of App *)

Lemma bind_assoc {A B C} (m : M A) (f : A -> M B) (g : B -> M C) :
  bind (bind m f) g = bind m (fun a => bind (f a) g).
Proof.
  destruct m as [log [a|e]]; simpl; [|reflexivity].
  destruct (f a) as [log' [b|e]]; simpl; [|reflexivity].
  destruct (g b) as [log'' r]. rewrite app_assoc. reflexivity.
Qed.

Lemma updates_app (l1 l2 : list Event) :
  updates (l1 ++ l2) = updates l1 ++ updates l2.
Proof.
  induction l1 as [|[| | | |u] l1 IH]; simpl; rewrite ?IH; reflexivity.
Qed.

Lemma remote_calls_app (l1 l2 : list Event) :
  remote_calls (l1 ++ l2) = remote_calls l1 ++ remote_calls l2.
Proof.
  induction l1 as [|[req| | | |] l1 IH]; simpl; rewrite ?IH; reflexivity.
Qed.

Lemma final_state_app (st : AppState) (l1 l2 : list Event) :
  final_state st (l1 ++ l2) = final_state (final_state st l1) l2.
Proof. apply fold_left_app. Qed.

Lemma final_state_cons (st : AppState) (e : Event) (log : list Event) :
  final_state st (e :: log) = final_state (step st e) log.
Proof. reflexivity. Qed.

(** A log without setter calls leaves the state where it is. *)
Lemma final_state_silent (st : AppState) (log : list Event) :
  updates log = [] -> final_state st log = st.
Proof.
  induction log as [|[| | | |u] log IH]; simpl; intros H;
    try discriminate; auto.
Qed.

Lemma states_silent (P : AppState -> Prop) (st : AppState) (log : list Event) :
  updates log = [] -> P st -> Forall P (states st log).
Proof.
  induction log as [|[| | | |u] log IH]; simpl; intros H Hst;
    try discriminate; constructor; auto.
Qed.

Lemma states_app (P : AppState -> Prop) (st : AppState) (l1 l2 : list Event) :
  Forall P (states st l1) ->
  Forall P (states (final_state st l1) l2) ->
  Forall P (states st (l1 ++ l2)).
Proof.
  revert st. induction l1 as [|e l1 IH]; simpl; intros st H1 H2.
  - exact H2.
  - inversion H1; subst. constructor; [assumption|]. apply IH; assumption.
Qed.

(** The last state a log goes through is its final state. *)
Lemma final_state_seen (st : AppState) (log : list Event) :
  In (final_state st log) (states st log).
Proof.
  revert st. induction log as [|e log IH]; simpl; intros st; auto.
Qed.

Section Handlers.

Variable generateContent :
  GenerateContentParameters -> result GenerateContentResponse.
Variable readAsBase64 : File -> result jsstring.
Variable fetchBlob : jsstring -> result (list N).

Lemma removeImageBackground_silent (base64ImageData mimeType : jsstring) :
  updates (log_of (removeImageBackground generateContent base64ImageData
                     mimeType)) = [].
Proof.
  rewrite removeImageBackground_run. cbv zeta.
  destruct (generateContent _) as [response|e]; [|reflexivity].
  destruct (candidates response) as [|candidate others]; [reflexivity|].
  destruct (firstInlineData _); reflexivity.
Qed.

Lemma backgroundRemoved_silent (uploaded : File) :
  updates (log_of (backgroundRemoved generateContent readAsBase64 fetchBlob
                     uploaded)) = [].
Proof.
  unfold backgroundRemoved, fileToBase64, base64ToFile.
  destruct (readAsBase64 uploaded) as [base64|e]; [|reflexivity].
  cbn [bind].
  pose proof (removeImageBackground_silent base64 (file_type uploaded)) as S.
  destruct (removeImageBackground _ _ _) as [log [processed|e]];
    cbn [log_of fst] in S; [|exact S].
  cbn [bind].
  destruct (fetchBlob _) as [blob|e]; cbn;
    rewrite updates_app, S; reflexivity.
Qed.

(** The log of the handler when an image is there: the two setters before
    the [try], the log of the removal, then the [try]'s last setter or
    the [catch], then the [finally]. *)
Lemma handleRemoveBackgroundClick_run (st : AppState) (uploaded : File) :
  uploadedImage st = Some uploaded ->
  handleRemoveBackgroundClick generateContent readAsBase64 fetchBlob st
  = ( [ SetState (setIsRemovingBackground true); SetState (setError None) ]
        ++ log_of (backgroundRemoved generateContent readAsBase64 fetchBlob
                     uploaded)
        ++ match outcome (backgroundRemoved generateContent readAsBase64
                            fetchBlob uploaded) with
           | Returned newImageFile =>
               [ SetState (setUploadedImage (Some newImageFile)) ]
           | Thrown err =>
               [ ConsoleError None err;
                 SetState (setError (Some (messageOr err Msg.unknownRemoval))) ]
           end
        ++ [ SetState (setIsRemovingBackground false) ],
      Returned tt ).
Proof.
  intros Hup. unfold handleRemoveBackgroundClick. rewrite Hup.
  assert (Body :
    (base64ImageData <- fileToBase64 readAsBase64 uploaded ;;
     processedData <- removeImageBackground generateContent base64ImageData
                        (file_type uploaded) ;;
     newImageFile <- base64ToFile fetchBlob processedData
                       (str "bg_removed_" ++ file_name uploaded) ;;
     set (setUploadedImage (Some newImageFile)))%js
    = (newImageFile <- backgroundRemoved generateContent readAsBase64
                         fetchBlob uploaded ;;
       set (setUploadedImage (Some newImageFile)))%js).
  { unfold backgroundRemoved.
    destruct (fileToBase64 readAsBase64 uploaded) as [l1 [b|e]];
      cbn [bind]; [|reflexivity].
    destruct (removeImageBackground generateContent b (file_type uploaded))
      as [l2 [p|e]]; cbn [bind]; [|reflexivity].
    destruct (base64ToFile fetchBlob p _) as [l3 [f|e]];
      cbn; rewrite ?app_assoc; reflexivity. }
  rewrite Body.
  destruct (backgroundRemoved _ _ _ _) as [log [newImageFile|err]];
    cbn; rewrite <- ?app_assoc; reflexivity.
Qed.

End Handlers.

(** C8, as stated, fails.  Before the first upload no image is current, and
    a remove-background call made then leaves none current: it only reports
    the error. *)
Lemma no_image_is_current_before_upload :
  let run :=
    handleRemoveBackgroundClick
      (Simulated.always (Simulated.respond [Simulated.imagePart (str "QUJD")]))
      (Simulated.reads (str "AAAA")) (Simulated.fetches [137; 80; 78; 71]%N)
      initialState in
  uploadedImage initialState = None
  /\ uploadedImage (final_state initialState (log_of run)) = None
  /\ log_of run = [SetState (setError (Some Msg.uploadFirst))].
Proof. cbv zeta. repeat split. Qed.

(** C8 (as the code has it). At most one image is current: none before the
    first upload, one from then on.  A remove-background call made with no
    current image makes no remote call and leaves none current.  Made with
    a current image, it keeps that image current in every state it goes
    through when anything in the call fails, and reports the error; when the
    call succeeds it replaces the image by the new file in one step, so
    every state it goes through holds the old image or the new file, and the
    last one holds the new file. *)
Theorem remove_background_replaces_only_on_success
  (generateContent : GenerateContentParameters -> result GenerateContentResponse)
  (readAsBase64 : File -> result jsstring)
  (fetchBlob : jsstring -> result (list N))
  (st : AppState) :
  let run :=
    handleRemoveBackgroundClick generateContent readAsBase64 fetchBlob st in
  let seen := states st (log_of run) in
  let st' := final_state st (log_of run) in
  match uploadedImage st with
  | None =>
      Forall (fun s => uploadedImage s = None) seen
      /\ remote_calls (log_of run) = []
  | Some uploaded =>
      match outcome (backgroundRemoved generateContent readAsBase64 fetchBlob
                       uploaded) with
      | Returned newImageFile =>
          uploadedImage st' = Some newImageFile
          /\ Forall (fun s => uploadedImage s = Some uploaded
                              \/ uploadedImage s = Some newImageFile) seen
          /\ file_name newImageFile = str "bg_removed_" ++ file_name uploaded
          /\ file_type newImageFile = str "image/png"
      | Thrown err =>
          uploadedImage st' = Some uploaded
          /\ Forall (fun s => uploadedImage s = Some uploaded) seen
          /\ error st' = Some (messageOr err Msg.unknownRemoval)
      end
  end.
Proof.
  cbv zeta. destruct (uploadedImage st) as [uploaded|] eqn:Hup.
  - rewrite (handleRemoveBackgroundClick_run generateContent readAsBase64
               fetchBlob st Hup).
    pose proof (backgroundRemoved_silent generateContent readAsBase64
                  fetchBlob uploaded) as Silent.
    assert (Named : forall f,
               outcome (backgroundRemoved generateContent readAsBase64
                          fetchBlob uploaded) = Returned f ->
               file_name f = str "bg_removed_" ++ file_name uploaded
               /\ file_type f = str "image/png").
    { unfold backgroundRemoved, fileToBase64, base64ToFile.
      destruct (readAsBase64 uploaded) as [b|e]; [|discriminate].
      cbn [bind].
      destruct (removeImageBackground _ _ _) as [l [p|e]]; [|discriminate].
      cbn [bind].
      destruct (fetchBlob _) as [blob|e]; cbn; [|discriminate].
      intros f E. injection E as <-. split; reflexivity. }
    destruct (backgroundRemoved _ _ _ _) as [log [newImageFile|err]];
      cbn [log_of outcome fst snd] in *.
    + destruct (Named _ eq_refl) as (En & Et).
      split; [|split; [|split; assumption]].
      * cbn [app].
        rewrite !final_state_cons, final_state_app,
          (final_state_silent _ _ Silent). reflexivity.
      * cbn [app states]. constructor; [left; exact Hup|].
        constructor; [left; exact Hup|].
        apply states_app.
        -- apply states_silent; [exact Silent | left; exact Hup].
        -- rewrite (final_state_silent _ _ Silent).
           cbn [states].
           constructor; [left; exact Hup|].
           constructor; [right; reflexivity|].
           constructor; [right; reflexivity|]. constructor.
    + split; [|split].
      * cbn [app].
        rewrite !final_state_cons, final_state_app,
          (final_state_silent _ _ Silent). exact Hup.
      * cbn [app states]. constructor; [exact Hup|].
        constructor; [exact Hup|].
        apply states_app.
        -- apply states_silent; [exact Silent | exact Hup].
        -- rewrite (final_state_silent _ _ Silent).
           repeat constructor; exact Hup.
      * cbn [app].
        rewrite !final_state_cons, final_state_app,
          (final_state_silent _ _ Silent). reflexivity.
  - unfold handleRemoveBackgroundClick. rewrite Hup. cbn.
    split; [|reflexivity]. repeat constructor; exact Hup.
Qed.

Lemma remove_background_replaces_only_on_success_witness :
  let st := Simulated.withImage initialState Simulated.photo in
  let succeeded :=
    handleRemoveBackgroundClick
      (Simulated.always
         (Simulated.respond
            [Simulated.textPart; Simulated.imagePart (str "QUJD")]))
      (Simulated.reads (str "AAAA")) (Simulated.fetches [137; 80; 78; 71]%N) st in
  let failed :=
    handleRemoveBackgroundClick
      (Simulated.always (Simulated.respond [Simulated.textPart]))
      (Simulated.reads (str "AAAA")) (Simulated.fetches [137; 80; 78; 71]%N) st in
  uploadedImage (final_state st (log_of succeeded))
  = Some {| file_name := str "bg_removed_me.jpg";
            file_type := str "image/png";
            file_bytes := [137; 80; 78; 71]%N |}
  /\ uploadedImage (final_state st (log_of failed)) = Some Simulated.photo
  /\ error (final_state st (log_of failed))
     = Some (str "Failed to remove background. Please check the console for more details.").
Proof.
  cbv zeta. split; [|split].
  - exact (proj1 (remove_background_replaces_only_on_success
                    (Simulated.always
                       (Simulated.respond
                          [Simulated.textPart; Simulated.imagePart (str "QUJD")]))
                    (Simulated.reads (str "AAAA"))
                    (Simulated.fetches [137; 80; 78; 71]%N)
                    (Simulated.withImage initialState Simulated.photo))).
  - exact (proj1 (remove_background_replaces_only_on_success
                    (Simulated.always (Simulated.respond [Simulated.textPart]))
                    (Simulated.reads (str "AAAA"))
                    (Simulated.fetches [137; 80; 78; 71]%N)
                    (Simulated.withImage initialState Simulated.photo))).
  - exact (proj2 (proj2 (remove_background_replaces_only_on_success
                    (Simulated.always (Simulated.respond [Simulated.textPart]))
                    (Simulated.reads (str "AAAA"))
                    (Simulated.fetches [137; 80; 78; 71]%N)
                    (Simulated.withImage initialState Simulated.photo)))).
Defined.

(** C9. When generation is triggered with no uploaded image, or with no
    style selected, the handler sets the error message
    'Please upload an image and select a style.' and returns: it makes no
    remote call, does not enter the loading state and does not touch the
    generated image. *)
Theorem generate_without_image_or_style
  (generateContent : GenerateContentParameters -> result GenerateContentResponse)
  (readAsBase64 : File -> result jsstring)
  (st : AppState) :
  uploadedImage st = None \/ selectedStyle st = [] ->
  let run := handleGenerateClick generateContent readAsBase64 st in
  let st' := final_state st (log_of run) in
  log_of run
  = [ SetState
        (setError (Some (str "Please upload an image and select a style."))) ]
  /\ outcome run = Returned tt
  /\ remote_calls (log_of run) = []
  /\ error st' = Some (str "Please upload an image and select a style.")
  /\ Forall (fun s => isLoading s = isLoading st
                      /\ generatedImage s = generatedImage st)
       (states st (log_of run)).
Proof.
  intros Guard. cbv zeta.
  assert (Run : handleGenerateClick generateContent readAsBase64 st
                = set (setError (Some Msg.uploadAndSelect))).
  { unfold handleGenerateClick.
    destruct Guard as [G|G]; rewrite G; [reflexivity|].
    destruct (uploadedImage st); reflexivity. }
  rewrite Run. cbn.
  repeat split; repeat constructor.
Qed.

Lemma generate_without_image_or_style_witness :
  let st := Simulated.withImage initialState Simulated.photo in
  let run :=
    handleGenerateClick
      (Simulated.always (Simulated.respond [Simulated.imagePart (str "QUJD")]))
      (Simulated.reads (str "AAAA")) st in
  selectedStyle st = []
  /\ remote_calls (log_of run) = []
  /\ isLoading (final_state st (log_of run)) = false
  /\ error (final_state st (log_of run))
     = Some (str "Please upload an image and select a style.").
Proof.
  cbv zeta.
  destruct (generate_without_image_or_style
              (Simulated.always
                 (Simulated.respond [Simulated.imagePart (str "QUJD")]))
              (Simulated.reads (str "AAAA"))
              (Simulated.withImage initialState Simulated.photo)
              (or_intror eq_refl))
    as (_ & _ & Calls & Err & Seen).
  split; [reflexivity|]. split; [exact Calls|]. split; [|exact Err].
  reflexivity.
Defined.

(** C10. Uploading an image makes it the current uploaded image and clears
    the generated image and the error; the selected style, the influence,
    the character and scene descriptions and the quality selector stay as
    they were (and so do the two in-flight flags). *)
Theorem upload_replaces_image_and_clears_result (file : File) (st : AppState) :
  let run := handleImageUpload file in
  let st' := final_state st (log_of run) in
  outcome run = Returned tt
  /\ uploadedImage st' = Some file
  /\ generatedImage st' = None
  /\ error st' = None
  /\ selectedStyle st' = selectedStyle st
  /\ referenceInfluence st' = referenceInfluence st
  /\ characterDescription st' = characterDescription st
  /\ sceneDescription st' = sceneDescription st
  /\ outputQuality st' = outputQuality st
  /\ isLoading st' = isLoading st
  /\ isRemovingBackground st' = isRemovingBackground st
  /\ remote_calls (log_of run) = [].
Proof. cbv zeta. repeat split. Qed.

(** ** Runs of the handlers on a simulated world *)

(** A full generation: the cyberpunk style at influence 75, standard
    quality; the remote model answers with text, then an image. *)
Example generate_click_succeeds :
  let st :=
    apply_update (Simulated.withImage initialState Simulated.photo)
      (setSelectedStyle (str "cyberpunk")) in
  let run :=
    handleGenerateClick
      (Simulated.always
         (Simulated.respond
            [Simulated.textPart; Simulated.imagePart (str "QUJD")]))
      (Simulated.reads (str "AAAA")) st in
  generatedImage (final_state st (log_of run))
  = Some (str "data:image/png;base64,QUJD")
  /\ error (final_state st (log_of run)) = None
  /\ isLoading (final_state st (log_of run)) = false
  /\ remote_calls (log_of run)
     = [ request (str "AAAA") (str "image/jpeg")
           (str "Reimagine the person in the image as a cyberpunk character. Add futuristic clothing, neon lighting effects, and subtle cybernetic enhancements, but keep the person recognizable."
              ++ Clause.adhereClosely ++ facePreservationInstruction
              ++ Clause.standardQuality) ].
Proof. cbv zeta. repeat split. Qed.

(** The same click when the file cannot be read: the rejection is not an
    [Error], so the fallback message is shown, and no remote call is made. *)
Example generate_click_unreadable_file :
  let st :=
    apply_update (Simulated.withImage initialState Simulated.photo)
      (setSelectedStyle (str "cyberpunk")) in
  let run :=
    handleGenerateClick
      (Simulated.always (Simulated.respond [Simulated.imagePart (str "QUJD")]))
      Simulated.unreadable st in
  error (final_state st (log_of run)) = Some Msg.unknownGeneration
  /\ generatedImage (final_state st (log_of run)) = None
  /\ isLoading (final_state st (log_of run)) = false
  /\ remote_calls (log_of run) = [].
Proof. cbv zeta. repeat split. Qed.

(* ------------------------------------------------------------------ *)
(** * Further properties of the service *)

Lemma generateImageFromImage_calls
  (generateContent : GenerateContentParameters -> result GenerateContentResponse)
  (base64ImageData mimeType basePrompt : jsstring) (influence : Q)
  (characterDescription sceneDescription outputQuality : jsstring) :
  remote_calls
    (log_of (generateImageFromImage generateContent base64ImageData mimeType
               basePrompt influence characterDescription sceneDescription
               outputQuality))
  = [ request base64ImageData mimeType
        (finalPrompt basePrompt influence characterDescription
           sceneDescription outputQuality) ].
Proof.
  rewrite generateImageFromImage_run. cbv zeta.
  destruct (generateContent _) as [response|e]; [|reflexivity].
  destruct (candidates response) as [|candidate others]; [reflexivity|].
  destruct (firstInlineData _); reflexivity.
Qed.

Lemma removeImageBackground_calls
  (generateContent : GenerateContentParameters -> result GenerateContentResponse)
  (base64ImageData mimeType : jsstring) :
  remote_calls
    (log_of (removeImageBackground generateContent base64ImageData mimeType))
  = [ request base64ImageData mimeType removeBackgroundInstruction ].
Proof.
  rewrite removeImageBackground_run. cbv zeta.
  destruct (generateContent _) as [response|e]; [|reflexivity].
  destruct (candidates response) as [|candidate others]; [reflexivity|].
  destruct (firstInlineData _); reflexivity.
Qed.

(** X1. Each operation makes exactly one remote call, with the request built
    from its arguments, and ends in one of two ways: it returns bytes and
    writes nothing to the console, or it writes the cause to the console
    once and throws its own generic error.  Nothing else is ever thrown and
    the call is never repeated. *)
Theorem operations_call_once_and_fail_generically
  (generateContent : GenerateContentParameters -> result GenerateContentResponse)
  (base64ImageData mimeType basePrompt : jsstring) (influence : Q)
  (characterDescription sceneDescription outputQuality : jsstring) :
  let transformRequest :=
    request base64ImageData mimeType
      (finalPrompt basePrompt influence characterDescription sceneDescription
         outputQuality) in
  let removeRequest :=
    request base64ImageData mimeType removeBackgroundInstruction in
  let transform :=
    generateImageFromImage generateContent base64ImageData mimeType basePrompt
      influence characterDescription sceneDescription outputQuality in
  let remove :=
    removeImageBackground generateContent base64ImageData mimeType in
  ((exists bytes, transform = ([RemoteCall transformRequest], Returned bytes))
   \/ (exists cause,
         transform
         = ([ RemoteCall transformRequest;
              ConsoleError (Some (str "Error calling Gemini API:")) cause ],
            Thrown Msg.generateFailed)))
  /\ ((exists bytes, remove = ([RemoteCall removeRequest], Returned bytes))
      \/ (exists cause,
            remove
            = ([ RemoteCall removeRequest;
                 ConsoleError
                   (Some (str "Error calling Gemini API for background removal:"))
                   cause ],
               Thrown Msg.removeFailed)))
  /\ remote_calls (log_of transform) = [transformRequest]
  /\ remote_calls (log_of remove) = [removeRequest].
Proof.
  cbv zeta.
  split; [|split; [|split; [apply generateImageFromImage_calls
                           | apply removeImageBackground_calls]]].
  - rewrite generateImageFromImage_run. cbv zeta.
    destruct (generateContent _) as [response|e]; [|right; eauto].
    destruct (candidates response) as [|candidate others]; [right; eauto|].
    destruct (firstInlineData _); [left | right]; eauto.
  - rewrite removeImageBackground_run. cbv zeta.
    destruct (generateContent _) as [response|e]; [|right; eauto].
    destruct (candidates response) as [|candidate others]; [right; eauto|].
    destruct (firstInlineData _); [left | right]; eauto.
Qed.

(** X2. A response without any candidate makes both operations fail with
    their generic error: reading the parts of the missing first candidate
    throws, and the operation's own [catch] takes it. *)
Theorem no_candidate_fails_generically
  (generateContent : GenerateContentParameters -> result GenerateContentResponse)
  (base64ImageData mimeType basePrompt : jsstring) (influence : Q)
  (characterDescription sceneDescription outputQuality : jsstring)
  (response : GenerateContentResponse) :
  candidates response = [] ->
  (generateContent
     (request base64ImageData mimeType
        (finalPrompt basePrompt influence characterDescription
           sceneDescription outputQuality)) = Returned response ->
   outcome (generateImageFromImage generateContent base64ImageData mimeType
              basePrompt influence characterDescription sceneDescription
              outputQuality) = Thrown Msg.generateFailed)
  /\ (generateContent
        (request base64ImageData mimeType removeBackgroundInstruction)
      = Returned response ->
      outcome (removeImageBackground generateContent base64ImageData mimeType)
      = Thrown Msg.removeFailed).
Proof.
  intros Hc. split; intros Hr.
  - rewrite generateImageFromImage_run. cbv zeta. rewrite Hr, Hc. reflexivity.
  - rewrite removeImageBackground_run. cbv zeta. rewrite Hr, Hc. reflexivity.
Qed.

Lemma no_candidate_fails_generically_witness :
  let empty := Simulated.always {| candidates := [] |} in
  outcome (generateImageFromImage empty (str "AAAA") (str "image/png")
             (str "Base") 50 [] [] (str "high")) = Thrown Msg.generateFailed
  /\ outcome (removeImageBackground empty (str "AAAA") (str "image/png"))
     = Thrown Msg.removeFailed.
Proof.
  cbv zeta.
  destruct (@no_candidate_fails_generically
              (Simulated.always {| candidates := [] |})
              (str "AAAA") (str "image/png") (str "Base") 50 [] [] (str "high")
              {| candidates := [] |} eq_refl) as (T & R).
  split; [exact (T eq_refl) | exact (R eq_refl)].
Defined.



(* ------------------------------------------------------------------ *)
(** * Further properties of the prompt composer *)

(** X4. The influence is neither checked against the slider's range nor
    clamped: every number falls in one of the three bands, a number below 0
    in the loose one and a number above 100 in the adhere-closely one. *)
Theorem influence_out_of_range (influence : Q) :
  ((70 < influence)%Q /\ influencePrompt influence = Clause.adhereClosely
   \/ (30 < influence <= 70)%Q
      /\ influencePrompt influence = Clause.strongReference
   \/ (influence <= 30)%Q
      /\ influencePrompt influence = Clause.looseInspiration)
  /\ ((influence < 0)%Q -> influencePrompt influence = Clause.looseInspiration)
  /\ ((100 < influence)%Q -> influencePrompt influence = Clause.adhereClosely).
Proof.
  split; [apply influencePrompt_cases|].
  split; intros H;
    destruct (influencePrompt_cases influence) as [[B E]|[[B E]|[B E]]];
    try exact E; lra.
Qed.

Lemma influence_out_of_range_witness :
  influencePrompt (-5) = Clause.looseInspiration
  /\ influencePrompt (250 # 1) = Clause.adhereClosely.
Proof.
  split.
  - apply (proj1 (proj2 (influence_out_of_range (-5)))). reflexivity.
  - apply (proj2 (proj2 (influence_out_of_range (250 # 1)))). reflexivity.
Defined.

Lemma blank_app (a b : jsstring) : blank (a ++ b) <-> blank a /\ blank b.
Proof. unfold blank. apply Forall_app. Qed.

(** X5. Descriptions are embedded without escaping.  A character description
    that closes its own quote and goes on with the words of the scene
    clause gives, with an empty scene, the very prompt that the two
    separate descriptions give: the prompt does not tell the two inputs
    apart. *)
Theorem descriptions_are_not_escaped
  (basePrompt character scene outputQuality : jsstring) (influence : Q) :
  ~ blank character ->
  ~ blank scene ->
  finalPrompt basePrompt influence
    (character ++ dquote ++ str "." ++ Clause.sceneLead ++ dquote ++ scene)
    [] outputQuality
  = finalPrompt basePrompt influence character scene outputQuality.
Proof.
  intros Hc Hs. rewrite !finalPrompt_unfold. unfold optional.
  assert (Hj : ~ blank (character ++ dquote ++ str "." ++ Clause.sceneLead
                          ++ dquote ++ scene)).
  { intros B. apply blank_app in B. tauto. }
  apply trim_truthy in Hc, Hs, Hj. rewrite Hc, Hs, Hj.
  change (truthy (trim [])) with false. cbv iota.
  unfold Clause.character, Clause.scene.
  rewrite <- !app_assoc. reflexivity.
Qed.

Lemma descriptions_are_not_escaped_witness :
  finalPrompt (str "Base") 50
    (str "a pilot" ++ dquote ++ str ". The scene and action should be: "
       ++ dquote ++ str "a hangar") [] (str "high")
  = finalPrompt (str "Base") 50 (str "a pilot") (str "a hangar") (str "high").
Proof.
  apply (@descriptions_are_not_escaped (str "Base") (str "a pilot")
           (str "a hangar") (str "high") 50).
  - intros B. apply trim_falsy in B. vm_compute in B. discriminate B.
  - intros B. apply trim_falsy in B. vm_compute in B. discriminate B.
Defined.

(* ------------------------------------------------------------------ *)
(** * Further properties of fileToBase64 and base64ToFile *)

Lemma split_without_separator (sep : N) (s : jsstring) :
  ~ In sep s -> split sep s = [s].
Proof.
  induction s as [|c r IH]; simpl; intros H; [reflexivity|].
  destruct (N.eqb_spec c sep) as [->|Hne]; [tauto|].
  rewrite IH by tauto. reflexivity.
Qed.

Lemma split_at_first_separator (sep : N) (h r : jsstring) :
  ~ In sep h -> split sep (h ++ sep :: r) = h :: split sep r.
Proof.
  induction h as [|c h IH]; simpl; intros H.
  - rewrite N.eqb_refl. reflexivity.
  - destruct (N.eqb_spec c sep) as [->|Hne]; [tauto|].
    rewrite IH by tauto. reflexivity.
Qed.

(** A string has no separator, or a first one. *)
Lemma first_separator (sep : N) (s : jsstring) :
  ~ In sep s \/ exists h r, s = h ++ sep :: r /\ ~ In sep h.
Proof.
  induction s as [|c s IH]; [left; simpl; tauto|].
  destruct (N.eqb_spec c sep) as [->|Hne].
  - right. exists [], s. simpl. tauto.
  - destruct IH as [H|(h & r & -> & H)].
    + left. simpl. intros [E|E]; [congruence | tauto].
    + right. exists (c :: h), r. split; [reflexivity|].
      simpl. intros [E|E]; [congruence | tauto].
Qed.



(** X7. The edges of [fileToBase64].  A string result without a comma makes
    the promise resolve with [undefined], not reject.  When it resolves with
    a text, the text is what stands between the first comma of the result
    and the second one (or the end), so it holds no comma.  A result that is
    not a string rejects with an [Error]; a reader error rejects with the
    event, which is not an [Error]. *)
Theorem fileToBase64_edges :
  (forall s,
      ~ In comma s ->
      FileReader.fileToBase64 (FileReader.Load (FileReader.ResultString s))
      = Returned None)
  /\ (forall s payload,
        FileReader.fileToBase64 (FileReader.Load (FileReader.ResultString s))
        = Returned (Some payload) ->
        ~ In comma payload
        /\ exists header rest,
             s = header ++ comma :: payload ++ rest
             /\ ~ In comma header
             /\ (rest = [] \/ exists more, rest = comma :: more))
  /\ FileReader.fileToBase64 (FileReader.Load FileReader.ResultOther)
     = Thrown (JsError (str "Failed to convert file to base64"))
  /\ (forall event,
        FileReader.fileToBase64 (FileReader.Error event)
        = Thrown (NonError event)).
Proof.
  split; [|split; [|split; reflexivity]].
  - intros s H. unfold FileReader.fileToBase64.
    rewrite split_without_separator by exact H. reflexivity.
  - intros s payload. unfold FileReader.fileToBase64.
    destruct (first_separator comma s) as [H|(h & r & -> & Hh)].
    + rewrite split_without_separator by exact H. discriminate.
    + rewrite split_at_first_separator by exact Hh.
      destruct (first_separator comma r) as [H|(p & more & -> & Hp)].
      * rewrite split_without_separator by exact H. simpl.
        intros E. injection E as <-. split; [exact H|].
        exists h, []. rewrite app_nil_r. auto.
      * rewrite split_at_first_separator by exact Hp. simpl.
        intros E. injection E as <-. split; [exact Hp|].
        exists h, (comma :: more). repeat split; eauto.
Qed.

Lemma fileToBase64_edges_witness :
  FileReader.fileToBase64
    (FileReader.Load (FileReader.ResultString (str "data:text/plain")))
  = Returned None.
Proof.
  apply (proj1 fileToBase64_edges). vm_compute. intuition discriminate.
Defined.

(* ------------------------------------------------------------------ *)
(** * Further properties of the handlers of App *)

(** A property of the state that every setter call of a log keeps holds in
    every state the log goes through. *)
Lemma states_preserved (P : AppState -> Prop) (st : AppState)
  (log : list Event) :
  P st ->
  (forall u s, In u (updates log) -> P s -> P (apply_update s u)) ->
  Forall P (states st log).
Proof.
  revert st. induction log as [|e log IH]; intros st Hst Hkeep.
  - repeat constructor. exact Hst.
  - simpl. constructor; [exact Hst|]. apply IH.
    + destruct e; simpl; try exact Hst. apply Hkeep; [left; reflexivity|exact Hst].
    + intros u s Hin. apply Hkeep. destruct e; simpl; auto.
Qed.

Lemma removelast_states (st : AppState) (log : list Event) (e : Event) :
  removelast (states st (log ++ [e])) = states st log.
Proof.
  revert st. induction log as [|e' log IH]; intros st; [reflexivity|].
  cbn [app states]. rewrite <- IH.
  destruct (states (step st e') (log ++ [e])) eqn:E; [|reflexivity].
  destruct log; discriminate E.
Qed.

Lemma generateImageFromImage_silent
  (generateContent : GenerateContentParameters -> result GenerateContentResponse)
  (base64ImageData mimeType basePrompt : jsstring) (influence : Q)
  (characterDescription sceneDescription outputQuality : jsstring) :
  updates (log_of (generateImageFromImage generateContent base64ImageData
                     mimeType basePrompt influence characterDescription
                     sceneDescription outputQuality)) = [].
Proof.
  rewrite generateImageFromImage_run. cbv zeta.
  destruct (generateContent _) as [response|e]; [|reflexivity].
  destruct (candidates response) as [|candidate others]; [reflexivity|].
  destruct (firstInlineData _); reflexivity.
Qed.

Lemma generated_silent
  (generateContent : GenerateContentParameters -> result GenerateContentResponse)
  (readAsBase64 : File -> result jsstring) (st : AppState) (uploaded : File) :
  updates (log_of (generated generateContent readAsBase64 st uploaded)) = [].
Proof.
  unfold generated, fileToBase64.
  destruct (readAsBase64 uploaded) as [base64|e]; [|reflexivity].
  cbn [bind].
  destruct (findStyle (selectedStyle st)) as [style|]; [|reflexivity].
  cbn [bind ret app].
  pose proof (generateImageFromImage_silent generateContent base64
                (file_type uploaded) (prompt style) (referenceInfluence st)
                (characterDescription st) (sceneDescription st)
                (outputQuality st)) as S.
  destruct (generateImageFromImage _ _ _ _ _ _ _ _) as [log r].
  exact S.
Qed.

(** The log of the generate handler when an image and a style are there. *)
Lemma handleGenerateClick_run
  (generateContent : GenerateContentParameters -> result GenerateContentResponse)
  (readAsBase64 : File -> result jsstring) (st : AppState) (uploaded : File) :
  uploadedImage st = Some uploaded ->
  selectedStyle st <> [] ->
  handleGenerateClick generateContent readAsBase64 st
  = ( [ SetState (setIsLoading true); SetState (setError None);
        SetState (setGeneratedImage None) ]
        ++ log_of (generated generateContent readAsBase64 st uploaded)
        ++ match outcome (generated generateContent readAsBase64 st uploaded)
           with
           | Returned generatedData =>
               [ SetState (setGeneratedImage (Some (dataUrl generatedData))) ]
           | Thrown err =>
               [ ConsoleError None err;
                 SetState
                   (setError (Some (messageOr err Msg.unknownGeneration))) ]
           end
        ++ [ SetState (setIsLoading false) ],
      Returned tt ).
Proof.
  intros Hup Hstyle. unfold handleGenerateClick. rewrite Hup.
  destruct (selectedStyle st) as [|c sel] eqn:Hsel; [congruence|].
  cbn [truthy]. rewrite <- Hsel.
  assert (Body :
    (base64ImageData <- fileToBase64 readAsBase64 uploaded ;;
     style <- match findStyle (selectedStyle st) with
              | Some style => ret style
              | None => throw Msg.invalidStyle
              end ;;
     generatedData <- generateImageFromImage generateContent base64ImageData
                        (file_type uploaded) (prompt style)
                        (referenceInfluence st) (characterDescription st)
                        (sceneDescription st) (outputQuality st) ;;
     set (setGeneratedImage
            (Some (str "data:image/png;base64," ++ generatedData))))%js
    = (generatedData <- generated generateContent readAsBase64 st uploaded ;;
       set (setGeneratedImage (Some (dataUrl generatedData))))%js).
  { unfold generated, dataUrl.
    destruct (fileToBase64 readAsBase64 uploaded) as [l1 [b|e]];
      cbn [bind]; [|reflexivity].
    destruct (findStyle (selectedStyle st)) as [style|];
      cbn [bind ret throw]; [|reflexivity].
    destruct (generateImageFromImage _ _ _ _ _ _ _ _) as [l3 [d|e]];
      cbn; rewrite ?app_nil_r, <- ?app_assoc; reflexivity. }
  rewrite Body.
  destruct (generated _ _ _ _) as [log [generatedData|err]];
    cbn; rewrite <- ?app_assoc; reflexivity.
Qed.

Lemma findStyle_catalogue (opt : StyleOption) :
  In opt styleOptions -> findStyle (id opt) = Some opt /\ id opt <> [].
Proof.
  intros H. simpl in H.
  destruct H as [<-|[<-|[<-|[<-|[]]]]]; split;
    try reflexivity; discriminate.
Qed.

Lemma findStyle_unknown (selected : jsstring) :
  (forall opt, In opt styleOptions -> id opt <> selected) ->
  findStyle selected = None.
Proof.
  intros H. unfold findStyle.
  destruct (find _ styleOptions) as [opt|] eqn:E; [|reflexivity].
  apply find_some in E as (Hin & Heq).
  apply strict_eq_spec in Heq. destruct (H opt Hin Heq).
Qed.

(** The final state depends on the setter calls of the log only. *)
Lemma final_state_updates (st : AppState) (log : list Event) :
  final_state st log = fold_left apply_update (updates log) st.
Proof.
  revert st. induction log as [|[| | | |u] log IH]; intros st; simpl;
    try apply IH; reflexivity.
Qed.

Lemma handleGenerateClick_updates
  (generateContent : GenerateContentParameters -> result GenerateContentResponse)
  (readAsBase64 : File -> result jsstring) (st : AppState) (uploaded : File) :
  uploadedImage st = Some uploaded ->
  selectedStyle st <> [] ->
  updates (log_of (handleGenerateClick generateContent readAsBase64 st))
  = [ setIsLoading true; setError None; setGeneratedImage None ]
      ++ match outcome (generated generateContent readAsBase64 st uploaded)
         with
         | Returned generatedData =>
             [ setGeneratedImage (Some (dataUrl generatedData)) ]
         | Thrown err =>
             [ setError (Some (messageOr err Msg.unknownGeneration)) ]
         end
      ++ [ setIsLoading false ].
Proof.
  intros Hup Hstyle.
  rewrite (handleGenerateClick_run generateContent readAsBase64 st Hup Hstyle).
  cbn [log_of fst]. rewrite !updates_app, generated_silent.
  destruct (outcome _); reflexivity.
Qed.

Lemma handleRemoveBackgroundClick_updates
  (generateContent : GenerateContentParameters -> result GenerateContentResponse)
  (readAsBase64 : File -> result jsstring)
  (fetchBlob : jsstring -> result (list N))
  (st : AppState) (uploaded : File) :
  uploadedImage st = Some uploaded ->
  updates (log_of (handleRemoveBackgroundClick generateContent readAsBase64
                     fetchBlob st))
  = [ setIsRemovingBackground true; setError None ]
      ++ match outcome (backgroundRemoved generateContent readAsBase64
                          fetchBlob uploaded) with
         | Returned newImageFile => [ setUploadedImage (Some newImageFile) ]
         | Thrown err =>
             [ setError (Some (messageOr err Msg.unknownRemoval)) ]
         end
      ++ [ setIsRemovingBackground false ].
Proof.
  intros Hup.
  rewrite (handleRemoveBackgroundClick_run generateContent readAsBase64
             fetchBlob st Hup).
  cbn [log_of fst]. rewrite !updates_app, backgroundRemoved_silent.
  destruct (outcome _); reflexivity.
Qed.

(** X8. A generate click with an image and a style never throws and always
    leaves the loading flag off.  When everything on the way succeeds the
    generated image is the PNG data URL of the returned data and no error is
    set; when anything fails no generated image is left and the error is
    the message of the thrown [Error], or the fallback text when what was
    thrown is not an [Error].  No state the click goes through changes the
    uploaded image, the other flag or a form field. *)
Theorem generate_click_outcomes
  (generateContent : GenerateContentParameters -> result GenerateContentResponse)
  (readAsBase64 : File -> result jsstring) (st : AppState) (uploaded : File) :
  uploadedImage st = Some uploaded ->
  selectedStyle st <> [] ->
  let run := handleGenerateClick generateContent readAsBase64 st in
  let st' := final_state st (log_of run) in
  outcome run = Returned tt
  /\ isLoading st' = false
  /\ match outcome (generated generateContent readAsBase64 st uploaded) with
     | Returned generatedData =>
         generatedImage st'
         = Some (str "data:image/png;base64," ++ generatedData)
         /\ error st' = None
     | Thrown err =>
         generatedImage st' = None
         /\ error st' = Some (messageOr err Msg.unknownGeneration)
     end
  /\ Forall (fun s => uploadedImage s = uploadedImage st
                      /\ isRemovingBackground s = isRemovingBackground st
                      /\ selectedStyle s = selectedStyle st
                      /\ referenceInfluence s = referenceInfluence st
                      /\ characterDescription s = characterDescription st
                      /\ sceneDescription s = sceneDescription st
                      /\ outputQuality s = outputQuality st)
       (states st (log_of run)).
Proof.
  intros Hup Hstyle. cbv zeta.
  pose proof (handleGenerateClick_updates generateContent readAsBase64 st
                Hup Hstyle) as U.
  split.
  { rewrite (handleGenerateClick_run generateContent readAsBase64 st Hup
               Hstyle). reflexivity. }
  rewrite final_state_updates, U.
  split; [destruct (outcome _); reflexivity|].
  split; [destruct (outcome _); split; reflexivity|].
  apply states_preserved; [tauto|].
  intros u s Hin Hs. rewrite U in Hin.
  destruct (outcome _); simpl in Hin;
    repeat (destruct Hin as [<-|Hin]; [exact Hs|]); destruct Hin.
Qed.

Lemma generate_click_outcomes_witness :
  let st :=
    apply_update (Simulated.withImage initialState Simulated.photo)
      (setSelectedStyle (str "evening-gown")) in
  let failing :=
    handleGenerateClick
      (Simulated.failing (JsError (str "503 overloaded")))
      (Simulated.reads (str "AAAA")) st in
  generatedImage (final_state st (log_of failing)) = None
  /\ error (final_state st (log_of failing))
     = Some (str "Failed to generate image. Please check the console for more details.").
Proof.
  cbv zeta.
  pose proof (@generate_click_outcomes
                (Simulated.failing (JsError (str "503 overloaded")))
                (Simulated.reads (str "AAAA"))
                (apply_update (Simulated.withImage initialState Simulated.photo)
                   (setSelectedStyle (str "evening-gown")))
                Simulated.photo eq_refl
                ltac:(discriminate)) as H.
  exact (proj1 (proj2 (proj2 H))).
Defined.

(** X9. With an image uploaded, a style of the catalogue selected and a
    readable file, the generate click sends exactly one request: the file's
    base64 data under the file's own MIME type, and as instruction the
    prompt composed from that style's prompt and the influence, character,
    scene and quality of the form. *)
Theorem generate_click_request
  (generateContent : GenerateContentParameters -> result GenerateContentResponse)
  (readAsBase64 : File -> result jsstring) (st : AppState)
  (uploaded : File) (style : StyleOption) (base64ImageData : jsstring) :
  uploadedImage st = Some uploaded ->
  In style styleOptions ->
  selectedStyle st = id style ->
  readAsBase64 uploaded = Returned base64ImageData ->
  remote_calls (log_of (handleGenerateClick generateContent readAsBase64 st))
  = [ request base64ImageData (file_type uploaded)
        (finalPrompt (prompt style) (referenceInfluence st)
           (characterDescription st) (sceneDescription st)
           (outputQuality st)) ].
Proof.
  intros Hup Hin Hsel Hread.
  destruct (@findStyle_catalogue style Hin) as (Hfind & Hne).
  rewrite (@handleGenerateClick_run generateContent readAsBase64 st uploaded
             Hup) by (rewrite Hsel; exact Hne).
  cbn [log_of fst]. rewrite !remote_calls_app.
  assert (T : forall r : result jsstring,
             remote_calls
               (match r with
                | Returned generatedData =>
                    [SetState
                       (setGeneratedImage (Some (dataUrl generatedData)))]
                | Thrown err =>
                    [ConsoleError None err;
                     SetState
                       (setError
                          (Some (messageOr err Msg.unknownGeneration)))]
                end) = []) by (intros [d|err]; reflexivity).
  rewrite T. cbn [remote_calls app]. rewrite app_nil_r.
  unfold generated, fileToBase64. rewrite Hread, Hsel, Hfind.
  cbn [bind ret app].
  pose proof (generateImageFromImage_calls generateContent
                base64ImageData (file_type uploaded) (prompt style)
                (referenceInfluence st) (characterDescription st)
                (sceneDescription st) (outputQuality st)) as Calls.
  destruct (generateImageFromImage _ _ _ _ _ _ _ _) as [log r].
  cbn [log_of fst remote_calls app] in *. rewrite Calls. reflexivity.
Qed.

Lemma generate_click_request_witness :
  let st :=
    apply_update (Simulated.withImage initialState Simulated.photo)
      (setSelectedStyle (str "fantasy-adventurer")) in
  remote_calls
    (log_of (handleGenerateClick
               (Simulated.always (Simulated.respond [Simulated.textPart]))
               (Simulated.reads (str "AAAA")) st))
  = [ request (str "AAAA") (str "image/jpeg")
        (finalPrompt
           (str "Change the person's clothing into that of a fantasy adventurer (like a ranger or a mage). Add a fitting, magical, or natural background while maintaining the person's face.")
           75 [] [] (str "standard")) ].
Proof.
  cbv zeta.
  apply (@generate_click_request
           (Simulated.always (Simulated.respond [Simulated.textPart]))
           (Simulated.reads (str "AAAA"))
           (apply_update (Simulated.withImage initialState Simulated.photo)
              (setSelectedStyle (str "fantasy-adventurer")))
           Simulated.photo
           {| id := str "fantasy-adventurer";
              name := str "Fantasy Adventurer";
              prompt := str "Change the person's clothing into that of a fantasy adventurer (like a ranger or a mage). Add a fitting, magical, or natural background while maintaining the person's face." |}
           (str "AAAA") eq_refl).
  - right; right; right; left; reflexivity.
  - reflexivity.
  - reflexivity.
Defined.

(** X10. A selected style that is not empty and not in the catalogue stops
    the generate click after the file is read: no remote call is made, no
    generated image is left and the error is 'Invalid style selected.'. *)
Theorem generate_click_unknown_style
  (generateContent : GenerateContentParameters -> result GenerateContentResponse)
  (readAsBase64 : File -> result jsstring) (st : AppState)
  (uploaded : File) (base64ImageData : jsstring) :
  uploadedImage st = Some uploaded ->
  selectedStyle st <> [] ->
  (forall style, In style styleOptions -> id style <> selectedStyle st) ->
  readAsBase64 uploaded = Returned base64ImageData ->
  let run := handleGenerateClick generateContent readAsBase64 st in
  let st' := final_state st (log_of run) in
  remote_calls (log_of run) = []
  /\ error st' = Some (str "Invalid style selected.")
  /\ generatedImage st' = None
  /\ isLoading st' = false.
Proof.
  intros Hup Hstyle Hunknown Hread. cbv zeta.
  rewrite (handleGenerateClick_run generateContent readAsBase64 st Hup Hstyle).
  unfold generated, fileToBase64.
  rewrite Hread, (@findStyle_unknown _ Hunknown).
  repeat split.
Qed.

Lemma generate_click_unknown_style_witness :
  let st :=
    apply_update (Simulated.withImage initialState Simulated.photo)
      (setSelectedStyle (str "steampunk")) in
  let run :=
    handleGenerateClick
      (Simulated.always (Simulated.respond [Simulated.imagePart (str "QUJD")]))
      (Simulated.reads (str "AAAA")) st in
  remote_calls (log_of run) = []
  /\ error (final_state st (log_of run)) = Some (str "Invalid style selected.").
Proof.
  cbv zeta.
  destruct (@generate_click_unknown_style
              (Simulated.always
                 (Simulated.respond [Simulated.imagePart (str "QUJD")]))
              (Simulated.reads (str "AAAA"))
              (apply_update (Simulated.withImage initialState Simulated.photo)
                 (setSelectedStyle (str "steampunk")))
              Simulated.photo (str "AAAA") eq_refl ltac:(discriminate)
              ltac:(intros style H; simpl in H;
                    destruct H as [<-|[<-|[<-|[<-|[]]]]]; discriminate)
              eq_refl) as (Calls & Err & _).
  split; assumption.
Defined.

(** X11. When the uploaded file cannot be read, neither handler reaches the
    remote model.  The error shown is the message of what the reader threw
    if that is an [Error], and the handler's fallback text otherwise; the
    uploaded image stays, and no generated image is left by the generate
    click. *)
Theorem unreadable_file_makes_no_remote_call
  (generateContent : GenerateContentParameters -> result GenerateContentResponse)
  (readAsBase64 : File -> result jsstring)
  (fetchBlob : jsstring -> result (list N))
  (st : AppState) (uploaded : File) (e : thrown) :
  uploadedImage st = Some uploaded ->
  readAsBase64 uploaded = Thrown e ->
  let removal :=
    handleRemoveBackgroundClick generateContent readAsBase64 fetchBlob st in
  let generation := handleGenerateClick generateContent readAsBase64 st in
  (remote_calls (log_of removal) = []
   /\ uploadedImage (final_state st (log_of removal)) = Some uploaded
   /\ error (final_state st (log_of removal))
      = Some (messageOr e (str "An unknown error occurred during background removal.")))
  /\ (selectedStyle st <> [] ->
      remote_calls (log_of generation) = []
      /\ generatedImage (final_state st (log_of generation)) = None
      /\ error (final_state st (log_of generation))
         = Some (messageOr e (str "An unknown error occurred during image generation."))).
Proof.
  intros Hup Hread. cbv zeta. split.
  - rewrite (handleRemoveBackgroundClick_run generateContent readAsBase64
               fetchBlob st Hup).
    unfold backgroundRemoved, fileToBase64. rewrite Hread.
    repeat split. exact Hup.
  - intros Hstyle.
    rewrite (handleGenerateClick_run generateContent readAsBase64 st Hup
               Hstyle).
    unfold generated, fileToBase64. rewrite Hread.
    repeat split.
Qed.

Lemma unreadable_file_makes_no_remote_call_witness :
  let st := Simulated.withImage initialState Simulated.photo in
  let removal :=
    handleRemoveBackgroundClick
      (Simulated.always (Simulated.respond [Simulated.imagePart (str "QUJD")]))
      Simulated.unreadable (Simulated.fetches [137; 80]%N) st in
  remote_calls (log_of removal) = []
  /\ error (final_state st (log_of removal))
     = Some (str "An unknown error occurred during background removal.").
Proof.
  cbv zeta.
  destruct (@unreadable_file_makes_no_remote_call
              (Simulated.always
                 (Simulated.respond [Simulated.imagePart (str "QUJD")]))
              Simulated.unreadable (Simulated.fetches [137; 80]%N)
              (Simulated.withImage initialState Simulated.photo)
              Simulated.photo (NonError (str "[object ProgressEvent]"))
              eq_refl eq_refl) as ((Calls & _ & Err) & _).
  split; assumption.
Defined.

Lemma backgroundRemoved_calls
  (generateContent : GenerateContentParameters -> result GenerateContentResponse)
  (readAsBase64 : File -> result jsstring)
  (fetchBlob : jsstring -> result (list N)) (uploaded : File) :
  (List.length
     (remote_calls
        (log_of (backgroundRemoved generateContent readAsBase64 fetchBlob
                   uploaded))) <= 1)%nat.
Proof.
  unfold backgroundRemoved, fileToBase64, base64ToFile.
  destruct (readAsBase64 uploaded) as [b|e]; [|cbn; lia].
  cbn [bind].
  pose proof (removeImageBackground_calls generateContent b
                (file_type uploaded)) as Calls.
  destruct (removeImageBackground _ _ _) as [log [p|e]];
    cbn [log_of fst] in Calls; [|cbn; rewrite Calls; cbn; lia].
  cbn [bind]. destruct (fetchBlob _) as [blob|e]; cbn;
    rewrite remote_calls_app, Calls; cbn; lia.
Qed.

(** X12. A background-removal click never throws and makes at most one
    remote call.  It touches neither the generated image (a result shown
    before stays), nor the loading flag, nor any form field, in any state
    it goes through; when an image is there it leaves its own flag off. *)
Theorem remove_click_frame
  (generateContent : GenerateContentParameters -> result GenerateContentResponse)
  (readAsBase64 : File -> result jsstring)
  (fetchBlob : jsstring -> result (list N))
  (st : AppState) :
  let run :=
    handleRemoveBackgroundClick generateContent readAsBase64 fetchBlob st in
  outcome run = Returned tt
  /\ (List.length (remote_calls (log_of run)) <= 1)%nat
  /\ (uploadedImage st <> None ->
      isRemovingBackground (final_state st (log_of run)) = false)
  /\ Forall (fun s => generatedImage s = generatedImage st
                      /\ isLoading s = isLoading st
                      /\ selectedStyle s = selectedStyle st
                      /\ referenceInfluence s = referenceInfluence st
                      /\ characterDescription s = characterDescription st
                      /\ sceneDescription s = sceneDescription st
                      /\ outputQuality s = outputQuality st)
       (states st (log_of run)).
Proof.
  cbv zeta. destruct (uploadedImage st) as [uploaded|] eqn:Hup.
  - pose proof (handleRemoveBackgroundClick_updates generateContent
                  readAsBase64 fetchBlob st Hup) as U.
    split.
    { rewrite (handleRemoveBackgroundClick_run generateContent readAsBase64
                 fetchBlob st Hup). reflexivity. }
    split.
    { rewrite (handleRemoveBackgroundClick_run generateContent readAsBase64
                 fetchBlob st Hup).
      cbn [log_of fst]. rewrite !remote_calls_app.
      assert (T : forall r : result File,
                 remote_calls
                   (match r with
                    | Returned newImageFile =>
                        [SetState (setUploadedImage (Some newImageFile))]
                    | Thrown err =>
                        [ConsoleError None err;
                         SetState
                           (setError
                              (Some (messageOr err Msg.unknownRemoval)))]
                    end) = []) by (intros [f|err]; reflexivity).
      rewrite T. cbn [remote_calls app]. rewrite app_nil_r.
      apply backgroundRemoved_calls. }
    rewrite final_state_updates, U. split.
    + intros _. destruct (outcome _); reflexivity.
    + apply states_preserved; [tauto|].
      intros u s Hin Hs. rewrite U in Hin.
      destruct (outcome _); simpl in Hin;
        repeat (destruct Hin as [<-|Hin]; [exact Hs|]); destruct Hin.
  - unfold handleRemoveBackgroundClick. rewrite Hup. cbn.
    split; [reflexivity|]. split; [lia|]. split; [congruence|].
    repeat constructor.
Qed.

Lemma remove_click_frame_witness :
  let st :=
    apply_update (Simulated.withImage initialState Simulated.photo)
      (setGeneratedImage (Some (str "data:image/png;base64,T0xE"))) in
  let run :=
    handleRemoveBackgroundClick
      (Simulated.always (Simulated.respond [Simulated.imagePart (str "QUJD")]))
      (Simulated.reads (str "AAAA")) (Simulated.fetches [137; 80]%N) st in
  generatedImage (final_state st (log_of run))
  = Some (str "data:image/png;base64,T0xE")
  /\ isRemovingBackground (final_state st (log_of run)) = false.
Proof.
  cbv zeta.
  pose proof (remove_click_frame
                (Simulated.always
                   (Simulated.respond [Simulated.imagePart (str "QUJD")]))
                (Simulated.reads (str "AAAA")) (Simulated.fetches [137; 80]%N)
                (apply_update (Simulated.withImage initialState Simulated.photo)
                   (setGeneratedImage
                      (Some (str "data:image/png;base64,T0xE"))))) as H.
  cbv zeta in H. destruct H as (_ & _ & Flag & Seen).
  split; [|apply Flag; discriminate].
  rewrite Forall_forall in Seen.
  exact (proj1 (Seen _ (final_state_seen _ _))).
Defined.

(** A state in which both buttons are disabled and the result column shows
    the spinner. *)
Lemma busy_when_flag_set (s : AppState) :
  isLoading s = true \/ isRemovingBackground s = true ->
  removeDisabled s = true
  /\ generateDisabled s = true
  /\ exists caption, resultPanel s = Spinner caption.
Proof.
  unfold removeDisabled, generateDisabled, resultPanel.
  intros [H|H]; rewrite H; rewrite ?orb_true_r; simpl; eauto.
Qed.

Lemma in_flight_states (P : AppState -> Prop) (st : AppState)
  (first last : Event) (mid : list Event) :
  P (step st first) ->
  (forall u s, In u (updates mid) -> P s -> P (apply_update s u)) ->
  removelast (tl (states st (first :: mid ++ [last]))) <> []
  /\ Forall P (removelast (tl (states st (first :: mid ++ [last])))).
Proof.
  intros Hfirst Hkeep. cbn [states tl]. rewrite removelast_states.
  split; [destruct mid; discriminate|].
  apply states_preserved; assumption.
Qed.

(** X13. While a call is in flight, that is in every state between the
    first setter call of a handler and its last one, both buttons are
    disabled and the result column shows the spinner; there is at least one
    such state. *)
Theorem buttons_disabled_while_in_flight
  (generateContent : GenerateContentParameters -> result GenerateContentResponse)
  (readAsBase64 : File -> result jsstring)
  (fetchBlob : jsstring -> result (list N))
  (st : AppState) (uploaded : File) :
  uploadedImage st = Some uploaded ->
  let busy s :=
    removeDisabled s = true
    /\ generateDisabled s = true
    /\ exists caption, resultPanel s = Spinner caption in
  let in_flight log := removelast (tl (states st log)) in
  let removal :=
    log_of (handleRemoveBackgroundClick generateContent readAsBase64
              fetchBlob st) in
  let generation :=
    log_of (handleGenerateClick generateContent readAsBase64 st) in
  (in_flight removal <> [] /\ Forall busy (in_flight removal))
  /\ (selectedStyle st <> [] ->
      in_flight generation <> [] /\ Forall busy (in_flight generation)).
Proof.
  intros Hup. cbv zeta. split.
  - rewrite (handleRemoveBackgroundClick_run generateContent readAsBase64
               fetchBlob st Hup).
    cbn [log_of fst app]. rewrite app_assoc, app_comm_cons.
    match goal with
    | |- context [states st (?first :: ?mid ++ [?last])] =>
        pose proof (@in_flight_states
                      (fun s => isRemovingBackground s = true)
                      st first last mid) as InFlight
    end.
    destruct InFlight as (Hne & Hall).
    + reflexivity.
    + intros u s Hin Hs. cbn [updates] in Hin.
      rewrite updates_app, backgroundRemoved_silent in Hin.
      destruct (outcome _); simpl in Hin;
        repeat (destruct Hin as [<-|Hin]; [exact Hs|]); destruct Hin.
    + split; [exact Hne|].
      eapply Forall_impl; [|exact Hall].
      intros s H. apply busy_when_flag_set. right. exact H.
  - intros Hstyle.
    rewrite (handleGenerateClick_run generateContent readAsBase64 st Hup
               Hstyle).
    cbn [log_of fst app]. rewrite app_assoc, 2!app_comm_cons.
    match goal with
    | |- context [states st (?first :: ?mid ++ [?last])] =>
        pose proof (@in_flight_states
                      (fun s => isLoading s = true)
                      st first last mid) as InFlight
    end.
    destruct InFlight as (Hne & Hall).
    + reflexivity.
    + intros u s Hin Hs. cbn [updates] in Hin.
      rewrite updates_app, generated_silent in Hin.
      destruct (outcome _); simpl in Hin;
        repeat (destruct Hin as [<-|Hin]; [exact Hs|]); destruct Hin.
    + split; [exact Hne|].
      eapply Forall_impl; [|exact Hall].
      intros s H. apply busy_when_flag_set. left. exact H.
Qed.

Lemma buttons_disabled_while_in_flight_witness :
  let st := Simulated.withImage initialState Simulated.photo in
  let log :=
    log_of (handleRemoveBackgroundClick
              (Simulated.always
                 (Simulated.respond [Simulated.imagePart (str "QUJD")]))
              (Simulated.reads (str "AAAA")) (Simulated.fetches [137; 80]%N)
              st) in
  removelast (tl (states st log)) <> []
  /\ Forall (fun s => removeDisabled s = true /\ generateDisabled s = true)
       (removelast (tl (states st log))).
Proof.
  cbv zeta.
  destruct (@buttons_disabled_while_in_flight
              (Simulated.always
                 (Simulated.respond [Simulated.imagePart (str "QUJD")]))
              (Simulated.reads (str "AAAA")) (Simulated.fetches [137; 80]%N)
              (Simulated.withImage initialState Simulated.photo)
              Simulated.photo eq_refl) as ((Hne & Hall) & _).
  split; [exact Hne|].
  eapply Forall_impl; [|exact Hall].
  intros s (Hr & Hg & _). split; assumption.
Defined.

(** X14. A click on an enabled button always passes the handler's guard:
    when the background-removal button is enabled the handler starts by
    raising its flag, and when the generate button is enabled the handler
    starts by raising the loading flag.  The guards' messages
    ('Please upload an image first.', 'Please upload an image and select a
    style.') can only come from a call made while the button is disabled. *)
Theorem enabled_button_passes_the_guard
  (generateContent : GenerateContentParameters -> result GenerateContentResponse)
  (readAsBase64 : File -> result jsstring)
  (fetchBlob : jsstring -> result (list N))
  (st : AppState) :
  (removeDisabled st = false ->
   exists rest,
     log_of (handleRemoveBackgroundClick generateContent readAsBase64
               fetchBlob st)
     = SetState (setIsRemovingBackground true) :: rest)
  /\ (generateDisabled st = false ->
      exists rest,
        log_of (handleGenerateClick generateContent readAsBase64 st)
        = SetState (setIsLoading true) :: rest)
  /\ (log_of (handleRemoveBackgroundClick generateContent readAsBase64
                fetchBlob st)
      = [SetState (setError (Some Msg.uploadFirst))] ->
      removeDisabled st = true)
  /\ (log_of (handleGenerateClick generateContent readAsBase64 st)
      = [SetState (setError (Some Msg.uploadAndSelect))] ->
      generateDisabled st = true).
Proof.
  unfold removeDisabled, generateDisabled.
  destruct (uploadedImage st) as [uploaded|] eqn:Hup; cbn [present negb orb].
  - destruct (selectedStyle st) as [|c sel] eqn:Hsel; cbn [truthy negb orb].
    + split; [|split; [discriminate|split]].
      * intros _.
        rewrite (handleRemoveBackgroundClick_run generateContent readAsBase64
                   fetchBlob st Hup). cbn [log_of fst app]. eauto.
      * rewrite (handleRemoveBackgroundClick_run generateContent readAsBase64
                   fetchBlob st Hup). cbn [log_of fst app]. discriminate.
      * reflexivity.
    + assert (Hstyle : selectedStyle st <> []) by (rewrite Hsel; discriminate).
      split; [|split; [|split]].
      * intros _.
        rewrite (handleRemoveBackgroundClick_run generateContent readAsBase64
                   fetchBlob st Hup). cbn [log_of fst app]. eauto.
      * intros _.
        rewrite (handleGenerateClick_run generateContent readAsBase64 st Hup
                   Hstyle). cbn [log_of fst app]. eauto.
      * rewrite (handleRemoveBackgroundClick_run generateContent readAsBase64
                   fetchBlob st Hup). cbn [log_of fst app]. discriminate.
      * rewrite (handleGenerateClick_run generateContent readAsBase64 st Hup
                   Hstyle). cbn [log_of fst app]. discriminate.
  - repeat split; try discriminate.
Qed.

Lemma enabled_button_passes_the_guard_witness :
  let st :=
    apply_update (Simulated.withImage initialState Simulated.photo)
      (setSelectedStyle (str "cyberpunk")) in
  generateDisabled st = false
  /\ exists rest,
       log_of (handleGenerateClick
                 (Simulated.failing (JsError (str "offline")))
                 (Simulated.reads (str "AAAA")) st)
       = SetState (setIsLoading true) :: rest.
Proof.
  cbv zeta. split; [reflexivity|].
  apply (proj1 (proj2 (@enabled_button_passes_the_guard
                         (Simulated.failing (JsError (str "offline")))
                         (Simulated.reads (str "AAAA"))
                         (Simulated.fetches [])
                         (apply_update
                            (Simulated.withImage initialState Simulated.photo)
                            (setSelectedStyle (str "cyberpunk")))))).
  reflexivity.
Defined.

(** X15. What the result column shows once a generate click has finished
    (no background removal running): the viewer with the new image when the
    generation succeeded; otherwise the error box with the error message,
    or the placeholder when that message is the empty string.  An image
    generated earlier is never shown after the click. *)
Theorem result_panel_after_generate
  (generateContent : GenerateContentParameters -> result GenerateContentResponse)
  (readAsBase64 : File -> result jsstring) (st : AppState) (uploaded : File) :
  uploadedImage st = Some uploaded ->
  selectedStyle st <> [] ->
  isRemovingBackground st = false ->
  resultPanel
    (final_state st
       (log_of (handleGenerateClick generateContent readAsBase64 st)))
  = match outcome (generated generateContent readAsBase64 st uploaded) with
    | Returned generatedData =>
        Viewer (str "data:image/png;base64," ++ generatedData)
    | Thrown err =>
        if truthy (messageOr err Msg.unknownGeneration)
        then ErrorBox (messageOr err Msg.unknownGeneration)
        else Placeholder
    end.
Proof.
  intros Hup Hstyle Hflag.
  rewrite final_state_updates,
    (handleGenerateClick_updates generateContent readAsBase64 st Hup Hstyle).
  unfold resultPanel.
  destruct (outcome _) as [d|err]; cbn; rewrite Hflag; reflexivity.
Qed.

Lemma result_panel_after_generate_witness :
  let st :=
    apply_update
      (apply_update (Simulated.withImage initialState Simulated.photo)
         (setSelectedStyle (str "cyberpunk")))
      (setGeneratedImage (Some (str "data:image/png;base64,T0xE"))) in
  resultPanel
    (final_state st
       (log_of (handleGenerateClick
                  (Simulated.always (Simulated.respond [Simulated.textPart]))
                  (Simulated.reads (str "AAAA")) st)))
  = ErrorBox (str "Failed to generate image. Please check the console for more details.").
Proof.
  cbv zeta.
  exact (@result_panel_after_generate
           (Simulated.always (Simulated.respond [Simulated.textPart]))
           (Simulated.reads (str "AAAA"))
           (apply_update
              (apply_update (Simulated.withImage initialState Simulated.photo)
                 (setSelectedStyle (str "cyberpunk")))
              (setGeneratedImage (Some (str "data:image/png;base64,T0xE"))))
           Simulated.photo eq_refl ltac:(discriminate) eq_refl).
Defined.

(* ------------------------------------------------------------------ *)
(** * Properties of ImageUploader and of the reachable states *)

Lemma isValidType_spec (t : jsstring) :
  ImageUploader.isValidType t = true
  <-> t = str "image/jpeg" \/ t = str "image/png".
Proof.
  unfold ImageUploader.isValidType, ImageUploader.validTypes.
  cbn [existsb]. rewrite !orb_true_iff, !strict_eq_spec.
  intuition congruence.
Qed.

(** X16. A file whose MIME type is neither 'image/jpeg' nor 'image/png' is
    turned down inside the uploader, on a drop and on a selection alike: the
    uploader shows 'Invalid file type. Please upload a JPG or PNG file.' and
    the parent's callback is not called, so nothing of App changes and no
    remote call can follow. *)
Theorem invalid_file_type_is_rejected_locally
  (onImageUpload : File -> M unit) (file : File) (others : list File)
  (u : ImageUploader.State) :
  file_type file <> str "image/jpeg" ->
  file_type file <> str "image/png" ->
  ImageUploader.handleDrop onImageUpload (file :: others) u
  = ({| ImageUploader.isDragging := false;
        ImageUploader.error :=
          Some (str "Invalid file type. Please upload a JPG or PNG file.") |},
     ret tt)
  /\ ImageUploader.onInputChange onImageUpload (file :: others) u
     = ({| ImageUploader.isDragging := ImageUploader.isDragging u;
           ImageUploader.error :=
             Some (str "Invalid file type. Please upload a JPG or PNG file.") |},
        ret tt).
Proof.
  intros Hj Hp.
  assert (V : ImageUploader.isValidType (file_type file) = false).
  { destruct (ImageUploader.isValidType (file_type file)) eqn:E;
      [|reflexivity].
    apply isValidType_spec in E. tauto. }
  unfold ImageUploader.handleDrop, ImageUploader.onInputChange,
    ImageUploader.handleFileChange, ImageUploader.handleFileValidation.
  rewrite V. split; reflexivity.
Qed.

Lemma invalid_file_type_is_rejected_locally_witness :
  let gif :=
    {| file_name := str "cat.gif"; file_type := str "image/gif";
       file_bytes := [71; 73; 70]%N |} in
  log_of (snd (ImageUploader.handleDrop handleImageUpload [gif]
                 ImageUploader.initial)) = []
  /\ ImageUploader.error
       (fst (ImageUploader.handleDrop handleImageUpload [gif]
               ImageUploader.initial))
     = Some ImageUploader.invalidType.
Proof.
  cbv zeta.
  rewrite (proj1 (@invalid_file_type_is_rejected_locally handleImageUpload
                    {| file_name := str "cat.gif";
                       file_type := str "image/gif";
                       file_bytes := [71; 73; 70]%N |}
                    [] ImageUploader.initial
                    ltac:(intros E; vm_compute in E; discriminate E)
                    ltac:(intros E; vm_compute in E; discriminate E))).
  split; reflexivity.
Defined.

(** X17. A dropped or selected list of files whose first file is a JPEG or
    a PNG clears the uploader's error and hands that first file, and no
    other, to the parent; with App's handler as the callback it becomes the
    uploaded image.  An empty list changes nothing but the drag highlight. *)
Theorem first_valid_file_is_uploaded
  (onImageUpload : File -> M unit) (file : File) (others : list File)
  (u : ImageUploader.State) (st : AppState) :
  (file_type file = str "image/jpeg" \/ file_type file = str "image/png" ->
   ImageUploader.handleDrop onImageUpload (file :: others) u
   = ({| ImageUploader.isDragging := false; ImageUploader.error := None |},
      onImageUpload file)
   /\ ImageUploader.onInputChange onImageUpload (file :: others) u
      = ({| ImageUploader.isDragging := ImageUploader.isDragging u;
            ImageUploader.error := None |},
         onImageUpload file)
   /\ uploadedImage
        (final_state st
           (log_of (snd (ImageUploader.handleDrop handleImageUpload
                           (file :: others) u))))
      = Some file)
  /\ ImageUploader.handleDrop onImageUpload [] u
     = ({| ImageUploader.isDragging := false;
           ImageUploader.error := ImageUploader.error u |},
        ret tt)
  /\ ImageUploader.onInputChange onImageUpload [] u = (u, ret tt).
Proof.
  split; [|split; reflexivity].
  intros Hvalid. apply isValidType_spec in Hvalid.
  unfold ImageUploader.handleDrop, ImageUploader.onInputChange,
    ImageUploader.handleFileChange, ImageUploader.handleFileValidation.
  rewrite Hvalid. repeat split.
Qed.

Lemma first_valid_file_is_uploaded_witness :
  uploadedImage
    (final_state initialState
       (log_of (snd (ImageUploader.handleDrop handleImageUpload
                       [Simulated.photo;
                        {| file_name := str "other.png";
                           file_type := str "image/png";
                           file_bytes := [] |}]
                       ImageUploader.initial))))
  = Some Simulated.photo.
Proof.
  apply (proj1 (@first_valid_file_is_uploaded handleImageUpload
                  Simulated.photo
                  [{| file_name := str "other.png";
                      file_type := str "image/png"; file_bytes := [] |}]
                  ImageUploader.initial initialState)).
  left. reflexivity.
Defined.

Lemma backgroundRemoved_is_png
  (generateContent : GenerateContentParameters -> result GenerateContentResponse)
  (readAsBase64 : File -> result jsstring)
  (fetchBlob : jsstring -> result (list N))
  (uploaded newImageFile : File) :
  outcome (backgroundRemoved generateContent readAsBase64 fetchBlob uploaded)
  = Returned newImageFile ->
  file_type newImageFile = str "image/png".
Proof.
  unfold backgroundRemoved, fileToBase64, base64ToFile.
  destruct (readAsBase64 uploaded) as [b|e]; [|discriminate].
  cbn [bind].
  destruct (removeImageBackground _ _ _) as [l [p|e]]; [|discriminate].
  cbn [bind].
  destruct (fetchBlob _) as [blob|e]; cbn; [|discriminate].
  intros E. injection E as <-. reflexivity.
Qed.

(** Every setter call a handler makes keeps a well-formed state
    well-formed. *)
Lemma handler_updates_keep_wellFormed
  (started : AppState) (log : list Event) (u : Update) (st : AppState) :
  handler_run started log -> In u (updates log) ->
  wellFormed st -> wellFormed (apply_update st u).
Proof.
  intros Hrun Hin (Hfile & Hurl).
  assert (Upload : forall file,
             (file_type file = str "image/jpeg"
              \/ file_type file = str "image/png") ->
             forall v, In v (updates (log_of (handleImageUpload file))) ->
                       wellFormed (apply_update st v)).
  { intros file Hv v Hv'. simpl in Hv'.
    destruct Hv' as [<-|[<-|[<-|[]]]]; split; simpl; auto;
      try discriminate.
    intros f E. injection E as <-. exact Hv. }
  assert (Files : forall (m : ImageUploader.State * M unit) files w,
             (m = ImageUploader.handleDrop handleImageUpload files w
              \/ m = ImageUploader.onInputChange handleImageUpload files w) ->
             In u (updates (log_of (snd m))) ->
             wellFormed (apply_update st u)).
  { intros m files w Hm Hu.
    assert (Hcase : m = (fst m, ret tt)
                    \/ exists file,
                         (file_type file = str "image/jpeg"
                          \/ file_type file = str "image/png")
                         /\ snd m = handleImageUpload file).
    { destruct files as [|file others];
        [destruct Hm as [-> | ->]; left; reflexivity|].
      destruct (ImageUploader.isValidType (file_type file)) eqn:V.
      - right. exists file. split; [apply isValidType_spec; exact V|].
        destruct Hm as [-> | ->];
          unfold ImageUploader.handleDrop, ImageUploader.onInputChange,
            ImageUploader.handleFileChange,
            ImageUploader.handleFileValidation;
          rewrite V; reflexivity.
      - left.
        destruct Hm as [-> | ->];
          unfold ImageUploader.handleDrop, ImageUploader.onInputChange,
            ImageUploader.handleFileChange,
            ImageUploader.handleFileValidation;
          rewrite V; reflexivity. }
    destruct Hcase as [E|(file & Hv & E)].
    - rewrite E in Hu. destruct Hu.
    - rewrite E in Hu. exact (Upload file Hv u Hu). }
  destruct Hrun as [gc rb fb | gc rb | files w | files w].
  - destruct (uploadedImage started) as [uploaded|] eqn:Hup.
    + rewrite (handleRemoveBackgroundClick_updates gc rb fb started Hup) in Hin.
      destruct (outcome _) as [newImageFile|err] eqn:Ho; simpl in Hin.
      * destruct Hin as [<-|[<-|[<-|[<-|[]]]]]; split; simpl; auto.
        intros f E. injection E as <-. right.
        exact (backgroundRemoved_is_png gc rb fb uploaded Ho).
      * destruct Hin as [<-|[<-|[<-|[<-|[]]]]]; split; simpl; auto.
    + unfold handleRemoveBackgroundClick in Hin. rewrite Hup in Hin.
      simpl in Hin. destruct Hin as [<-|[]]. split; simpl; auto.
  - destruct (uploadedImage started) as [uploaded|] eqn:Hup.
    + destruct (selectedStyle started) as [|c sel] eqn:Hsel.
      * unfold handleGenerateClick in Hin. rewrite Hup, Hsel in Hin.
        simpl in Hin. destruct Hin as [<-|[]]. split; simpl; auto.
      * assert (Hstyle : selectedStyle started <> [])
          by (rewrite Hsel; discriminate).
        rewrite (handleGenerateClick_updates gc rb started Hup Hstyle) in Hin.
        destruct (outcome _) as [d|err]; simpl in Hin.
        -- destruct Hin as [<-|[<-|[<-|[<-|[<-|[]]]]]]; split; simpl; auto;
             try discriminate.
           intros url E. injection E as <-. exists d. reflexivity.
        -- destruct Hin as [<-|[<-|[<-|[<-|[<-|[]]]]]]; split; simpl; auto;
             discriminate.
    + unfold handleGenerateClick in Hin. rewrite Hup in Hin.
      simpl in Hin. destruct Hin as [<-|[]]. split; simpl; auto.
  - apply (Files _ files w (or_introl eq_refl) Hin).
  - apply (Files _ files w (or_intror eq_refl) Hin).
Qed.

(** X18. In every state App can reach, under any interleaving of its
    handlers, the uploaded image, if there is one, is a JPEG or a PNG, and
    the generated image, if there is one, is a PNG data URL: uploads pass
    the uploader's check, a background removal puts a PNG in place, and
    only the generate click sets a generated image. *)
Theorem reachable_states_are_well_formed (st : AppState) :
  reachable st -> wellFormed st.
Proof.
  induction 1 as [|st u _ IH Hfield|st started log u _ IH _ _ Hrun Hin].
  - split; discriminate.
  - destruct IH as (Hfile & Hurl).
    destruct Hfield; split; simpl; assumption.
  - exact (@handler_updates_keep_wellFormed started log u st Hrun Hin IH).
Qed.

Lemma reachable_states_are_well_formed_witness :
  let st :=
    apply_update initialState
      (setUploadedImage
         (Some {| file_name := str "bg_removed_me.jpg";
                  file_type := str "image/png";
                  file_bytes := [137; 80]%N |})) in
  reachable st /\ wellFormed st.
Proof.
  cbv zeta.
  assert (R0 : reachable (Simulated.withImage initialState Simulated.photo)).
  { apply (@reach_handler initialState initialState
             (log_of (snd (ImageUploader.handleDrop handleImageUpload
                             [Simulated.photo] ImageUploader.initial)))
             (setUploadedImage (Some Simulated.photo))
             reach_initial reach_initial).
    - apply run_drop.
    - left. reflexivity. }
  assert (R : reachable
                (apply_update initialState
                   (setUploadedImage
                      (Some {| file_name := str "bg_removed_me.jpg";
                               file_type := str "image/png";
                               file_bytes := [137; 80]%N |})))).
  { apply (@reach_handler initialState
             (Simulated.withImage initialState Simulated.photo)
             (log_of (handleRemoveBackgroundClick
                        (Simulated.always
                           (Simulated.respond
                              [Simulated.imagePart (str "QUJD")]))
                        (Simulated.reads (str "AAAA"))
                        (Simulated.fetches [137; 80]%N)
                        (Simulated.withImage initialState Simulated.photo)))
             (setUploadedImage
                (Some {| file_name := str "bg_removed_me.jpg";
                         file_type := str "image/png";
                         file_bytes := [137; 80]%N |}))
             reach_initial R0).
    - apply run_remove.
    - right. right. left. reflexivity. }
  split; [exact R | exact (@reachable_states_are_well_formed _ R)].
Defined.
